(** * USDT transfer dApp: the two [App] components and their handlers

    The repository holds two versions of one React component [App]:
    - the MetaMask SDK version (hooks from [useSDK]), module [SdkApp];
    - the Web3Modal version (hooks from [useWeb3Modal...]), module [ModalApp].

    Each handler ([connect], [switchToBNBChain], [fetchBalances],
    [handleTransfer]) is an async function over six [useState] cells.  The
    handlers are embedded as programs of a small free monad [Prog]: a tree
    whose nodes are the calls the handler makes into the wallet and ethers
    libraries, the state setters it invokes, and its [await] points.  The
    interpreter [run] answers every library call from a [World] (an arbitrary
    function of the history and the call), applies the setters to the state
    cells and records everything in a chronological [Trace]. *)

From Stdlib Require Import ZArith NArith List String Ascii Bool Lia.
From Stdlib Require Import DecimalString.
Import ListNotations.
Local Open Scope string_scope.
Local Open Scope list_scope.

(** ** JavaScript values the handlers look into *)

(** The [code] property of a thrown object: absent, a number, or a string
    (ethers uses strings such as ACTION_REJECTED, wallets use numbers). *)
Inductive ErrCode : Type :=
| CodeNone
| CodeNum (n : Z)
| CodeStr (s : string).

(** A thrown error object: the handlers read [err.message] and [err.code]. *)
Record JsError : Type := mkError { message : string; code : ErrCode }.

(** [err.code === 4902] and the like: strict equality with a number. *)
Definition code_is (err : JsError) (n : Z) : bool :=
  match code err with
  | CodeNum m => Z.eqb m n
  | _ => false
  end.

(** Objects of the libraries (providers, signers, contracts, transaction
    responses) are opaque: only their identity is kept. *)
Definition Handle : Type := nat.

(** [!x] for a string or undefined value [x]. *)
Definition falsy (x : option string) : bool :=
  match x with
  | None => true
  | Some s => String.eqb s ""
  end.

(** [!x] for an object or undefined value [x]. *)
Definition absent {A : Type} (x : option A) : bool :=
  match x with
  | None => true
  | Some _ => false
  end.

(** ** Constants of the source *)

Definition USDT_ADDRESS : string := "0x55d398326f99059fF775485246999027B3197955".

Definition USDT_ABI : list string :=
  [ "function balanceOf(address) view returns (uint256)";
    "function decimals() view returns (uint8)";
    "function transfer(address, uint256) returns (bool)" ].

Record NativeCurrency : Type := mkCurrency
  { name : string; symbol : string; decimals : Z }.

Record ChainDescriptor : Type := mkChain
  { chainId : string;
    chainName : string;
    nativeCurrency : NativeCurrency;
    rpcUrls : list string;
    blockExplorerUrls : list string }.

(** One element of the [params] array of a wallet request. *)
Inductive RpcParam : Type :=
| ChainRef (chainId : string)
| ChainDesc (d : ChainDescriptor).

(** The object literal passed with [wallet_addEthereumChain]. *)
Definition BSC : ChainDescriptor :=
  {| chainId := "0x38";
     chainName := "BNB Smart Chain";
     nativeCurrency := {| name := "BNB"; symbol := "BNB"; decimals := 18 |};
     rpcUrls := ["https://bsc-dataseed.binance.org/"];
     blockExplorerUrls := ["https://bscscan.com/"] |}.

(** ** Component state: the six [useState] cells *)

Record State : Type := mkState
  { bnbBalance : string;
    usdtBalance : string;
    loading : bool;
    error : string;
    recipient : string;
    amount : string }.

(** [useState] initial values. *)
Definition initialState : State :=
  {| bnbBalance := "0"; usdtBalance := "0"; loading := false;
     error := ""; recipient := ""; amount := "" |}.

(** A call of one of the six setters. *)
Inductive Update : Type :=
| SetBnbBalance (v : string)
| SetUsdtBalance (v : string)
| SetLoading (b : bool)
| SetError (m : string)
| SetRecipient (v : string)
| SetAmount (v : string).

Definition apply_update (u : Update) (s : State) : State :=
  match u with
  | SetBnbBalance v =>
      mkState v (usdtBalance s) (loading s) (error s) (recipient s) (amount s)
  | SetUsdtBalance v =>
      mkState (bnbBalance s) v (loading s) (error s) (recipient s) (amount s)
  | SetLoading b =>
      mkState (bnbBalance s) (usdtBalance s) b (error s) (recipient s) (amount s)
  | SetError m =>
      mkState (bnbBalance s) (usdtBalance s) (loading s) m (recipient s) (amount s)
  | SetRecipient v =>
      mkState (bnbBalance s) (usdtBalance s) (loading s) (error s) v (amount s)
  | SetAmount v =>
      mkState (bnbBalance s) (usdtBalance s) (loading s) (error s) (recipient s) v
  end.

(** ** Calls into the wallet and ethers libraries *)

(** A settled promise, or the outcome of a library call that may throw. *)
Inductive Result (T : Type) : Type :=
| Resolved (v : T)
| Rejected (e : JsError).
Arguments Resolved {T} v.
Arguments Rejected {T} e.

(** Every library entry point the handlers use, indexed by the type of the
    value it yields.  Chain quantities are bigints ([Z]); the [decimals] of
    the token is a uint8 decoded by ethers ([N]). *)
Inductive Call : Type -> Type :=
| SdkConnect (sdk : Handle) : Call unit
| Request (provider : Handle) (method : string) (params : list RpcParam) : Call unit
| NewBrowserProvider (provider : option Handle) : Call Handle
| GetSigner (ethersProvider : Handle) : Call Handle
| NewContract (address : string) (abi : list string) (runner : Handle) : Call Handle
| GetBalance (ethersProvider : Handle) (account : string) : Call Z
| Decimals (contract : Handle) : Call N
| BalanceOf (contract : Handle) (account : string) : Call Z
| ParseUnits (amount : string) (decimals : N) : Call Z
| ContractTransfer (contract : Handle) (recipient : string) (amount : Z) : Call Handle
| TxWait (tx : Handle) : Call unit
| FormatEther (value : Z) : Call string
| FormatUnits (value : Z) (decimals : N) : Call string.

(** The calls that return a promise (the source awaits them); the others
    (constructors, [parseUnits], [formatEther], [formatUnits]) run
    synchronously. *)
Definition is_async {T : Type} (c : Call T) : bool :=
  match c with
  | SdkConnect _ | Request _ _ _ | GetSigner _ | GetBalance _ _
  | Decimals _ | BalanceOf _ _ | ContractTransfer _ _ _ | TxWait _ => true
  | NewBrowserProvider _ | NewContract _ _ _ | ParseUnits _ _
  | FormatEther _ | FormatUnits _ _ => false
  end.

(** The component functions, for the entry markers of the trace. *)
Inductive Fn : Type := FnConnect | FnSwitchToBNBChain | FnFetchBalances | FnHandleTransfer.

(** What an execution does, in order: setter calls, library calls with their
    outcome, and entries into component functions (ghost markers). *)
Inductive Event : Type :=
| EvSet (u : Update)
| EvCall (T : Type) (c : Call T) (r : Result T)
| EvEnter (f : Fn).
Arguments EvCall {T} c r.

Definition Trace : Type := list Event.

(** The environment: it answers each library call, knowing all that happened
    before. *)
Definition World : Type := forall T : Type, Trace -> Call T -> Result T.

(** ** Handler programs *)

Inductive Prog (A : Type) : Type :=
| Ret (a : A)
| Throw (e : JsError)
| Vis (T : Type) (c : Call T) (k : Result T -> Prog A)
| Upd (u : Update) (k : Prog A)
| Mark (f : Fn) (k : Prog A)
| Yield (k : Prog A).
Arguments Ret {A} a.
Arguments Throw {A} e.
Arguments Vis {A T} c k.
Arguments Upd {A} u k.
Arguments Mark {A} f k.
Arguments Yield {A} k.

Fixpoint bind {A B : Type} (p : Prog A) (f : A -> Prog B) : Prog B :=
  match p with
  | Ret a => f a
  | Throw e => Throw e
  | Vis c k => Vis c (fun r => bind (k r) f)
  | Upd u k => Upd u (bind k f)
  | Mark g k => Mark g (bind k f)
  | Yield k => Yield (bind k f)
  end.

(** [try { p } catch (err) { h err }] *)
Fixpoint try_catch {A : Type} (p : Prog A) (h : JsError -> Prog A) : Prog A :=
  match p with
  | Ret a => Ret a
  | Throw e => h e
  | Vis c k => Vis c (fun r => try_catch (k r) h)
  | Upd u k => Upd u (try_catch k h)
  | Mark g k => Mark g (try_catch k h)
  | Yield k => Yield (try_catch k h)
  end.

(** [try { p } finally { f }]: [f] runs on both exits; the exit of [p] is
    kept unless [f] itself throws. *)
Fixpoint try_finally {A : Type} (p : Prog A) (f : Prog unit) : Prog A :=
  match p with
  | Ret a => bind f (fun _ => Ret a)
  | Throw e => bind f (fun _ => Throw e)
  | Vis c k => Vis c (fun r => try_finally (k r) f)
  | Upd u k => Upd u (try_finally k f)
  | Mark g k => Mark g (try_finally k f)
  | Yield k => Yield (try_finally k f)
  end.

(** A library call: its value, or its error thrown. *)
Definition call {T : Type} (c : Call T) : Prog T :=
  Vis c (fun r => match r with
                  | Resolved v => Ret v
                  | Rejected e => Throw e
                  end).

(** [await undefined] (what [x?.f()] leaves when [x] is undefined). *)
Definition await_undefined : Prog unit := Yield (Ret tt).

Definition set (u : Update) : Prog unit := Upd u (Ret tt).
Definition enter (f : Fn) : Prog unit := Mark f (Ret tt).

Declare Scope prog_scope.
Delimit Scope prog_scope with prog.
Notation "x <- p ;; q" := (bind p (fun x => q))
  (at level 61, p at next level, right associativity) : prog_scope.
Notation "p ;; q" := (bind p (fun _ => q))
  (at level 61, right associativity) : prog_scope.
Notation "'TRY' p 'CATCH' err => h" := (try_catch p (fun err => h))
  (at level 61, p at level 61, err name, h at level 200) : prog_scope.
Local Open Scope prog_scope.

(** ** Sequential execution of one handler *)

Inductive Outcome (A : Type) : Type :=
| Returned (a : A)
| Raised (e : JsError).
Arguments Returned {A} a.
Arguments Raised {A} e.

Record Final (A : Type) : Type := mkFinal
  { outcome : Outcome A; final : State; trace : Trace }.
Arguments mkFinal {A}.
Arguments outcome {A}.
Arguments final {A}.
Arguments trace {A}.

(** [run w p s h] executes [p] to its end from the cells [s], after the
    history [h]; the trace of the result extends [h]. *)
Fixpoint run {A : Type} (w : World) (p : Prog A) (s : State) (h : Trace) : Final A :=
  match p with
  | Ret a => mkFinal (Returned a) s h
  | Throw e => mkFinal (Raised e) s h
  | Vis c k => let r := w _ h c in run w (k r) s (h ++ [EvCall c r])
  | Upd u k => run w k (apply_update u s) (h ++ [EvSet u])
  | Mark f k => run w k s (h ++ [EvEnter f])
  | Yield k => run w k s h
  end.

(** ** Observations on traces *)

(** A library call (any library call) was made. *)
Definition is_call (e : Event) : bool :=
  match e with
  | EvCall _ _ => true
  | _ => false
  end.

(** A library call failed. *)
Definition is_rejected (e : Event) : bool :=
  match e with
  | EvCall _ (Rejected _) => true
  | _ => false
  end.

Definition is_enter (f : Fn) (e : Event) : bool :=
  match e, f with
  | EvEnter FnConnect, FnConnect
  | EvEnter FnSwitchToBNBChain, FnSwitchToBNBChain
  | EvEnter FnFetchBalances, FnFetchBalances
  | EvEnter FnHandleTransfer, FnHandleTransfer => true
  | _, _ => false
  end.

(** The library calls of a trace, setter calls and markers dropped. *)
Definition calls (t : Trace) : Trace := filter is_call t.

(** How many times component function [f] was entered. *)
Definition invocations (f : Fn) (t : Trace) : nat := List.length (filter (is_enter f) t).

(** The value of the first [formatEther] that succeeded, if any. *)
Fixpoint native_formatted (t : Trace) : option string :=
  match t with
  | [] => None
  | EvCall c r :: t' =>
      match c, r with
      | FormatEther _, Resolved v => Some v
      | _, _ => native_formatted t'
      end
  | _ :: t' => native_formatted t'
  end.

(** [setError('')] *)
Definition is_clear (e : Event) : bool :=
  match e with
  | EvSet (SetError m) => String.eqb m ""
  | _ => false
  end.

(** The contract [transfer] call resolved (the transaction was sent). *)
Definition is_transfer_resolved (e : Event) : bool :=
  match e with
  | EvCall c r =>
      match c, r with
      | ContractTransfer _ _ _, Resolved _ => true
      | _, _ => false
      end
  | _ => false
  end.

(** [tx.wait()] resolved (the transaction was confirmed). *)
Definition is_wait_resolved (e : Event) : bool :=
  match e with
  | EvCall c r =>
      match c, r with
      | TxWait _, Resolved _ => true
      | _, _ => false
      end
  | _ => false
  end.

(** The transfer call and its confirmation wait both succeeded. *)
Definition transfer_confirmed (t : Trace) : bool :=
  existsb is_transfer_resolved t && existsb is_wait_resolved t.

(** The error of the first [transfer] call or [wait] that was rejected. *)
Fixpoint transfer_failure (t : Trace) : option JsError :=
  match t with
  | [] => None
  | EvCall c r :: t' =>
      match c, r with
      | ContractTransfer _ _ _, Rejected e => Some e
      | TxWait _, Rejected e => Some e
      | _, _ => transfer_failure t'
      end
  | _ :: t' => transfer_failure t'
  end.

(** What follows the first entry into [f]. *)
Fixpoint after_enter (f : Fn) (t : Trace) : Trace :=
  match t with
  | [] => []
  | e :: t' => if is_enter f e then t' else after_enter f t'
  end.

(** A library call made by the balance refresh failed. *)
Definition refresh_failed (t : Trace) : bool :=
  existsb is_rejected (after_enter FnFetchBalances t).



(** The [wallet_switchEthereumChain] request was rejected with another code. *)
Definition is_switch_rejected_other (e : Event) : bool :=
  match e with
  | EvCall c r =>
      match c, r with
      | Request _ m _, Rejected err =>
          String.eqb m "wallet_switchEthereumChain" && negb (code_is err 4902)
      | _, _ => false
      end
  | _ => false
  end.


(** The [params] of every [wallet_addEthereumChain] request, in order. *)
Fixpoint add_chain_requests (t : Trace) : list (list RpcParam) :=
  match t with
  | [] => []
  | EvCall c _ :: t' =>
      match c with
      | Request _ m ps =>
          if String.eqb m "wallet_addEthereumChain"
          then ps :: add_chain_requests t'
          else add_chain_requests t'
      | _ => add_chain_requests t'
      end
  | _ :: t' => add_chain_requests t'
  end.

(** The events that precede the first library call. *)
Fixpoint before_first_call (t : Trace) : Trace :=
  match t with
  | [] => []
  | e :: t' => if is_call e then [] else e :: before_first_call t'
  end.

(** [setError('')] was called before any library call was made. *)
Definition error_cleared_at_start (t : Trace) : bool :=
  existsb is_clear (before_first_call t).

(** The error of the first rejected call that is not part of a balance
    refresh. *)
Fixpoint handler_failure (t : Trace) : option JsError :=
  match t with
  | [] => None
  | EvEnter FnFetchBalances :: _ => None
  | EvCall _ (Rejected e) :: _ => Some e
  | _ :: t' => handler_failure t'
  end.

(** The error of the rejected [sdk.connect()], if any. *)
Fixpoint connect_failure (t : Trace) : option JsError :=
  match t with
  | [] => None
  | EvCall c r :: t' =>
      match c, r with
      | SdkConnect _, Rejected e => Some e
      | _, _ => connect_failure t'
      end
  | _ :: t' => connect_failure t'
  end.

(** The value a resolved [getBalance], [decimals], [balanceOf] returned. *)
Fixpoint native_read (t : Trace) : option Z :=
  match t with
  | [] => None
  | EvCall c r :: t' =>
      match c, r with
      | GetBalance _ _, Resolved b => Some b
      | _, _ => native_read t'
      end
  | _ :: t' => native_read t'
  end.

Fixpoint decimals_read (t : Trace) : option N :=
  match t with
  | [] => None
  | EvCall c r :: t' =>
      match c, r with
      | Decimals _, Resolved d => Some d
      | _, _ => decimals_read t'
      end
  | _ :: t' => decimals_read t'
  end.

Fixpoint token_read (t : Trace) : option Z :=
  match t with
  | [] => None
  | EvCall c r :: t' =>
      match c, r with
      | BalanceOf _ _, Resolved b => Some b
      | _, _ => token_read t'
      end
  | _ :: t' => token_read t'
  end.

(** ** The MetaMask SDK version of [App] *)

Module SdkApp.

(** What [useSDK()] hands to a render. *)
Record Session : Type := mkSession
  { sdk : option Handle;
    connected : bool;
    connecting : bool;
    provider : option Handle;
    chainId : option string;
    account : option string }.

(** One render of the component: the hook values and the state cells its
    closures captured. *)
Record Render : Type := mkRender { hooks : Session; cells : State }.

Definition switchToBNBChain (r : Render) : Prog unit :=
  enter FnSwitchToBNBChain ;;
  TRY
    match provider (hooks r) with
    | Some p => call (Request p "wallet_switchEthereumChain" [ChainRef "0x38"])
    | None => await_undefined
    end
  CATCH err =>
    if code_is err 4902 then
      TRY
        match provider (hooks r) with
        | Some p => call (Request p "wallet_addEthereumChain" [ChainDesc BSC])
        | None => await_undefined
        end
      CATCH addError => set (SetError "Failed to add BSC network")
    else
      set (SetError "Failed to switch network").

Definition connect (r : Render) : Prog unit :=
  enter FnConnect ;;
  try_finally
    (TRY
       set (SetLoading true) ;;
       set (SetError "") ;;
       match sdk (hooks r) with
       | Some k => call (SdkConnect k)
       | None => await_undefined
       end ;;
       switchToBNBChain r
     CATCH err => set (SetError (message err)))
    (set (SetLoading false)).

(** Past the guard [account] is a non-empty string: it is read as such. *)
Definition fetchBalances (r : Render) : Prog unit :=
  enter FnFetchBalances ;;
  if falsy (account (hooks r)) || absent (provider (hooks r)) then Ret tt
  else
    let account := match account (hooks r) with Some a => a | None => "" end in
    TRY
      ethersProvider <- call (NewBrowserProvider (provider (hooks r))) ;;
      bnbBal <- call (GetBalance ethersProvider account) ;;
      formatted <- call (FormatEther bnbBal) ;;
      set (SetBnbBalance formatted) ;;
      usdtContract <- call (NewContract USDT_ADDRESS USDT_ABI ethersProvider) ;;
      decimals <- call (Decimals usdtContract) ;;
      usdtBal <- call (BalanceOf usdtContract account) ;;
      formatted <- call (FormatUnits usdtBal decimals) ;;
      set (SetUsdtBalance formatted)
    CATCH err => set (SetError "Failed to fetch balances").

Definition handleTransfer (r : Render) : Prog unit :=
  enter FnHandleTransfer ;;
  if String.eqb (recipient (cells r)) "" || String.eqb (amount (cells r)) "" then
    set (SetError "Please enter recipient address and amount")
  else
    try_finally
      (TRY
         set (SetLoading true) ;;
         set (SetError "") ;;
         ethersProvider <- call (NewBrowserProvider (provider (hooks r))) ;;
         signer <- call (GetSigner ethersProvider) ;;
         usdtContract <- call (NewContract USDT_ADDRESS USDT_ABI signer) ;;
         decimals <- call (Decimals usdtContract) ;;
         transferAmount <- call (ParseUnits (amount (cells r)) decimals) ;;
         tx <- call (ContractTransfer usdtContract (recipient (cells r)) transferAmount) ;;
         call (TxWait tx) ;;
         fetchBalances r ;;
         set (SetRecipient "") ;;
         set (SetAmount "")
       CATCH err => set (SetError (message err)))
      (set (SetLoading false)).

(** The [useEffect] on [connected, account, chainId]. *)
Definition effect (r : Render) : Prog unit :=
  if connected (hooks r) && negb (falsy (account (hooks r))) then fetchBalances r
  else Ret tt.

(** [disabled] of the connect and of the submit button. *)
Definition connectDisabled (r : Render) : bool :=
  connecting (hooks r) || loading (cells r).
Definition transferDisabled (r : Render) : bool := loading (cells r).

(** A click on a button: a disabled button dispatches nothing. *)
Definition clickConnect (r : Render) : Prog unit :=
  if connectDisabled r then Ret tt else connect r.
Definition clickTransfer (r : Render) : Prog unit :=
  if transferDisabled r then Ret tt else handleTransfer r.

End SdkApp.

(** ** The Web3Modal version of [App] *)

Module ModalApp.

(** What the Web3Modal hooks hand to a render. *)
Record Session : Type := mkSession
  { address : option string;
    isConnected : bool;
    chainId : option Z;
    walletProvider : option Handle }.

Record Render : Type := mkRender { hooks : Session; cells : State }.

Definition switchToBNBChain (r : Render) : Prog unit :=
  enter FnSwitchToBNBChain ;;
  match walletProvider (hooks r) with
  | None => Ret tt
  | Some p =>
      TRY
        call (Request p "wallet_switchEthereumChain" [ChainRef "0x38"])
      CATCH err =>
        if code_is err 4902 then
          TRY
            call (Request p "wallet_addEthereumChain" [ChainDesc BSC])
          CATCH addError => set (SetError "Failed to add BSC network")
        else
          set (SetError "Failed to switch network")
  end.

(** Past the guard [address] is a non-empty string: it is read as such. *)
Definition fetchBalances (r : Render) : Prog unit :=
  enter FnFetchBalances ;;
  if negb (isConnected (hooks r)) || absent (walletProvider (hooks r))
     || falsy (address (hooks r)) then Ret tt
  else
    let address := match address (hooks r) with Some a => a | None => "" end in
    TRY
      provider <- call (NewBrowserProvider (walletProvider (hooks r))) ;;
      bnbBal <- call (GetBalance provider address) ;;
      formatted <- call (FormatEther bnbBal) ;;
      set (SetBnbBalance formatted) ;;
      usdtContract <- call (NewContract USDT_ADDRESS USDT_ABI provider) ;;
      decimals <- call (Decimals usdtContract) ;;
      usdtBal <- call (BalanceOf usdtContract address) ;;
      formatted <- call (FormatUnits usdtBal decimals) ;;
      set (SetUsdtBalance formatted)
    CATCH err => set (SetError "Failed to fetch balances").

Definition handleTransfer (r : Render) : Prog unit :=
  enter FnHandleTransfer ;;
  if String.eqb (recipient (cells r)) "" || String.eqb (amount (cells r)) "" then
    set (SetError "Please enter recipient address and amount")
  else if absent (walletProvider (hooks r)) then
    set (SetError "Please connect your wallet")
  else
    try_finally
      (TRY
         set (SetLoading true) ;;
         set (SetError "") ;;
         provider <- call (NewBrowserProvider (walletProvider (hooks r))) ;;
         signer <- call (GetSigner provider) ;;
         usdtContract <- call (NewContract USDT_ADDRESS USDT_ABI signer) ;;
         decimals <- call (Decimals usdtContract) ;;
         transferAmount <- call (ParseUnits (amount (cells r)) decimals) ;;
         tx <- call (ContractTransfer usdtContract (recipient (cells r)) transferAmount) ;;
         call (TxWait tx) ;;
         fetchBalances r ;;
         set (SetRecipient "") ;;
         set (SetAmount "")
       CATCH err => set (SetError (message err)))
      (set (SetLoading false)).

(** The [useEffect] on [isConnected, address, chainId]. *)
Definition effect (r : Render) : Prog unit :=
  if isConnected (hooks r) && negb (falsy (address (hooks r))) then fetchBalances r
  else Ret tt.

Definition transferDisabled (r : Render) : bool := loading (cells r).

Definition clickTransfer (r : Render) : Prog unit :=
  if transferDisabled r then Ret tt else handleTransfer r.

End ModalApp.

(** ** The library functions behind the balance display *)

(** The handlers hand chain quantities to ethers' [formatEther] and
    [formatUnits], and the balance cards show
    [parseFloat(balance).toFixed(n)].  These functions belong to ethers (v6,
    the version that has [BrowserProvider]) and to the language; they are
    modelled here from their published behaviour, over exact integers. *)

(** *** ethers: [formatUnits] and [formatEther] *)

Local Open Scope string_scope.

Definition digits (n : N) : string := NilEmpty.string_of_uint (N.to_uint n).

Fixpoint zeros (n : nat) : string :=
  match n with
  | O => ""
  | S k => String "0" (zeros k)
  end.

(** Trim the whole component, leaving at least one digit. *)
Fixpoint trim_whole (s : string) : string :=
  match s with
  | String c (String _ _ as rest) =>
      if Ascii.eqb c "0" then trim_whole rest else s
  | _ => s
  end.

Fixpoint strip_zeros_right (s : string) : string :=
  match s with
  | "" => ""
  | String c rest =>
      let rest' := strip_zeros_right rest in
      if String.eqb rest' "" && Ascii.eqb c "0" then "" else String c rest'
  end.

(** Trim the decimal component, leaving at least one digit. *)
Definition trim_fraction (s : string) : string :=
  match strip_zeros_right s with
  | "" => "0"
  | s' => s'
  end.

(** The string of a fixed-point value: [val] counted in units of
    [10^-decimals].  Whole values ([decimals] = 0) get no decimal point. *)
Definition fixed_to_string (val : Z) (decimals : N) : string :=
  let negative := if (val <? 0)%Z then "-" else "" in
  let str := digits (Z.abs_N val) in
  if (decimals =? 0)%N then negative ++ str
  else
    let d := N.to_nat decimals in
    let str := zeros (S d - String.length str) ++ str in
    let index := String.length str - d in
    negative ++ trim_whole (substring 0 index str) ++ "."
             ++ trim_fraction (substring index d str).

(** [ethers.formatUnits(value, decimals)]: a fixed-point number of 512 bits
    and at most 80 decimals, printed.  (The messages of the two errors are
    abridged; no handler reads them.) *)
Definition formatUnits (value : Z) (decimals : N) : Result string :=
  if (80 <? decimals)%N then
    Rejected (mkError "invalid FixedNumber decimals (too large)"
                      (CodeStr "INVALID_ARGUMENT"))
  else if ((value <? - 2 ^ 511) || (2 ^ 511 <=? value))%Z then
    Rejected (mkError "overflow" (CodeStr "NUMERIC_FAULT"))
  else Resolved (fixed_to_string value decimals).

(** [ethers.formatEther(wei)] is [formatUnits(wei, 18)]. *)
Definition formatEther (wei : Z) : Result string := formatUnits wei 18.

(** A world whose [formatEther] and [formatUnits] are those of ethers. *)
Definition formats_as_ethers (w : World) : Prop :=
  forall h value decimals,
    w _ h (FormatEther value) = formatEther value /\
    w _ h (FormatUnits value decimals) = formatUnits value decimals.

(** *** The language: Number values, [parseFloat], [toFixed] *)

(** A Number: NaN, an infinity, or the finite double
    [(-1)^negative * mantissa * 2^exponent], with [mantissa < 2^53] and
    [-1074 <= exponent <= 971].  Zero keeps its sign. *)
Inductive JsNumber : Type :=
| NaN
| Infinite (negative : bool)
| Finite (negative : bool) (mantissa : N) (exponent : Z).

(** [floor (n / d)] rounded to the nearest integer, ties to even. *)
Definition div_half_even (n d : Z) : Z :=
  let q := (n / d)%Z in
  let r := (n mod d)%Z in
  match (2 * r ?= d)%Z with
  | Lt => q
  | Gt => (q + 1)%Z
  | Eq => if Z.even q then q else (q + 1)%Z
  end.

(** The double nearest to [num / den] ([den] > 0), ties to even: IEEE 754
    binary64 rounding, with gradual underflow and overflow to infinity. *)
Definition round_to_double (negative : bool) (num den : Z) : JsNumber :=
  if (num <=? 0)%Z then Finite negative 0 0
  else
    let e0 := (Z.log2 num - Z.log2 den - 52)%Z in
    (* scaled e = floor (num / (den * 2^e)) *)
    let scaled e := if (0 <=? e)%Z then (num / (den * 2 ^ e))%Z
                    else (num * 2 ^ (- e) / den)%Z in
    let e1 := if (scaled e0 <? 2 ^ 52)%Z then (e0 - 1)%Z else e0 in
    let e := Z.max e1 (-1074) in
    let m := if (0 <=? e)%Z then div_half_even num (den * 2 ^ e)
             else div_half_even (num * 2 ^ (- e)) den in
    let '(m, e) := if (m =? 2 ^ 53)%Z then ((2 ^ 52)%Z, (e + 1)%Z) else (m, e) in
    if (971 <? e)%Z then Infinite negative
    else Finite negative (Z.to_N m) (if (m =? 0)%Z then 0%Z else e).

(** The digits at the head of a string, and what follows them. *)
Definition is_digit (c : ascii) : bool :=
  let n := nat_of_ascii c in ((48 <=? n) && (n <=? 57))%nat.

Fixpoint span_digits (s : string) : string * string :=
  match s with
  | String c rest =>
      if is_digit c
      then let '(ds, tl) := span_digits rest in (String c ds, tl)
      else ("", s)
  | "" => ("", "")
  end.

Definition value_of_digits (ds : string) : Z :=
  match NilEmpty.uint_of_string ds with
  | Some u => Z.of_N (N.of_uint u)
  | None => 0%Z
  end.

(** StrWhiteSpaceChar, as far as single bytes go: TAB, LF, VT, FF, CR, SP. *)
Definition is_space (c : ascii) : bool :=
  let n := nat_of_ascii c in (((9 <=? n) && (n <=? 13)) || (n =? 32))%nat.

Fixpoint trim_start (s : string) : string :=
  match s with
  | String c rest => if is_space c then trim_start rest else s
  | "" => ""
  end.

(** An ExponentPart at the head of [s]: [e] or [E], a sign if any, digits.
    Without digits there is no exponent part and the value is 0. *)
Definition exponent_part (s : string) : Z :=
  match s with
  | String c rest =>
      if Ascii.eqb c "e" || Ascii.eqb c "E" then
        match rest with
        | String sg rest' =>
            if Ascii.eqb sg "-" then
              match span_digits rest' with
              | ("", _) => 0%Z
              | (ds, _) => (- value_of_digits ds)%Z
              end
            else if Ascii.eqb sg "+" then value_of_digits (fst (span_digits rest'))
            else value_of_digits (fst (span_digits rest))
        | "" => 0%Z
        end
      else 0%Z
  | "" => 0%Z
  end.

(** The value of the digits [whole . frac] times ten to the [ex]. *)
Definition decimal_value (negative : bool) (whole frac : string) (ex : Z) : JsNumber :=
  let d := value_of_digits (whole ++ frac) in
  let x := (ex - Z.of_nat (String.length frac))%Z in
  if (0 <=? x)%Z then round_to_double negative (d * 10 ^ x) 1
  else round_to_double negative d (10 ^ (- x)).

Definition starts_with (p s : string) : bool := String.eqb (substring 0 (String.length p) s) p.

(** StrUnsignedDecimalLiteral: the longest prefix that is one. *)
Definition unsigned_literal (negative : bool) (s : string) : JsNumber :=
  if starts_with "Infinity" s then Infinite negative
  else
    let '(whole, tl) := span_digits s in
    match tl with
    | String "." tl' =>
        let '(frac, tl'') := span_digits tl' in
        if String.eqb whole "" && String.eqb frac "" then NaN
        else decimal_value negative whole frac (exponent_part tl'')
    | _ =>
        if String.eqb whole "" then NaN
        else decimal_value negative whole "" (exponent_part tl)
    end.

(** [parseFloat(string)] *)
Definition parseFloat (input : string) : JsNumber :=
  match trim_start input with
  | String "-" rest => unsigned_literal true rest
  | String "+" rest => unsigned_literal false rest
  | s => unsigned_literal false s
  end.

(** The Number nearest to the decimal [s * 10^x]. *)
Definition double_of_decimal (s x : Z) : JsNumber :=
  if (0 <=? x)%Z then round_to_double false (s * 10 ^ x) 1
  else round_to_double false s (10 ^ (- x)).

Definition same_number (a b : JsNumber) : bool :=
  match a, b with
  | Finite n1 m1 e1, Finite n2 m2 e2 =>
      Bool.eqb n1 n2 && N.eqb m1 m2 && Z.eqb e1 e2
  | Infinite n1, Infinite n2 => Bool.eqb n1 n2
  | _, _ => false
  end.

(** The shortest digits [(s, k)] that read back as the double [m * 2^e],
    whose value lies in [10^(n-1), 10^n): [k] is tried from 1 to 17, and for
    each [k] the [k]-digit integers next to the value. *)
Fixpoint shortest_digits (fuel : nat) (k : Z) (m : N) (e n : Z) : Z * Z :=
  let num := if (0 <=? e)%Z then (Z.of_N m * 2 ^ e)%Z else Z.of_N m in
  let den := if (0 <=? e)%Z then 1%Z else (2 ^ (- e))%Z in
  (* the value over 10^(n-k) *)
  let '(num', den') := if (0 <=? n - k)%Z then (num, (den * 10 ^ (n - k))%Z)
                       else ((num * 10 ^ (k - n))%Z, den) in
  let near := div_half_even num' den' in
  let ok s := andb ((10 ^ (k - 1) <=? s)%Z && (s <? 10 ^ k)%Z)
                   (same_number (double_of_decimal s (n - k)) (Finite false m e)) in
  match fuel with
  | O => (near, k)
  | S fuel' =>
      if ok near then (near, k)
      else if ok (num' / den')%Z then ((num' / den')%Z, k)
      else if ok (num' / den' + 1)%Z then ((num' / den' + 1)%Z, k)
      else shortest_digits fuel' (k + 1)%Z m e n
  end.

(** The number of digits of the integer part of a value [>= 1]. *)
Definition integer_digits (m : N) (e : Z) : Z :=
  let whole := if (0 <=? e)%Z then (Z.of_N m * 2 ^ e)%Z
               else (Z.of_N m / 2 ^ (- e))%Z in
  Z.of_nat (String.length (digits (Z.to_N whole))).

(** Number::toString of a finite value [>= 10^21]: exponential notation. *)
Definition exponential_string (m : N) (e : Z) : string :=
  let n := integer_digits m e in
  let '(s, k) := shortest_digits 17 1 m e n in
  let ds := digits (Z.to_N s) in
  let ex := "e+" ++ digits (Z.to_N (n - 1)) in
  match ds with
  | String c "" => String c ex
  | String c rest => String c ("." ++ rest ++ ex)
  | "" => ex
  end.

(** [x.toFixed(f)] for [0 <= f <= 100] (outside, a RangeError). *)
Definition toFixed (x : JsNumber) (f : N) : Result string :=
  if (100 <? f)%N then
    Rejected (mkError "toFixed() digits argument must be between 0 and 100" CodeNone)
  else
    match x with
    | NaN => Resolved "NaN"
    | Infinite false => Resolved "Infinity"
    | Infinite true => Resolved "-Infinity"
    | Finite negative m e =>
        let sign := if negative && negb (N.eqb m 0) then "-" else "" in
        let whole := if (0 <=? e)%Z then (Z.of_N m * 2 ^ e)%Z
                     else (Z.of_N m / 2 ^ (- e))%Z in
        if (10 ^ 21 <=? whole)%Z then Resolved (sign ++ exponential_string m e)
        else
          (* the integer nearest to x * 10^f, the larger of two *)
          let n := if (0 <=? e)%Z then (Z.of_N m * 2 ^ e * 10 ^ Z.of_N f)%Z
                   else ((2 * Z.of_N m * 10 ^ Z.of_N f + 2 ^ (- e))
                           / 2 ^ (- e + 1))%Z in
          let ms := digits (Z.to_N n) in
          if (f =? 0)%N then Resolved (sign ++ ms)
          else
            let fd := N.to_nat f in
            let ms := zeros (S fd - String.length ms) ++ ms in
            let k := String.length ms in
            Resolved (sign ++ substring 0 (k - fd) ms ++ "."
                           ++ substring (k - fd) fd ms)
    end.

(** The text of the two balance cards:
    [parseFloat(bnbBalance).toFixed(4)] and [parseFloat(usdtBalance).toFixed(2)]. *)
Definition bnbDisplayed (s : State) : Result string :=
  toFixed (parseFloat (bnbBalance s)) 4.

Definition usdtDisplayed (s : State) : Result string :=
  toFixed (parseFloat (usdtBalance s)) 2.

Local Open Scope list_scope.

(** ** Either version of the component *)

(** A render of one of the two versions of [App]. *)
Inductive AppRender : Type :=
| Sdk (r : SdkApp.Render)
| Modal (r : ModalApp.Render).

Definition cells (v : AppRender) : State :=
  match v with
  | Sdk r => SdkApp.cells r
  | Modal r => ModalApp.cells r
  end.

(** The provider handle of the session: [provider], resp. [walletProvider]. *)
Definition providerHandle (v : AppRender) : option Handle :=
  match v with
  | Sdk r => SdkApp.provider (SdkApp.hooks r)
  | Modal r => ModalApp.walletProvider (ModalApp.hooks r)
  end.

Definition switchToBNBChain (v : AppRender) : Prog unit :=
  match v with
  | Sdk r => SdkApp.switchToBNBChain r
  | Modal r => ModalApp.switchToBNBChain r
  end.

Definition fetchBalances (v : AppRender) : Prog unit :=
  match v with
  | Sdk r => SdkApp.fetchBalances r
  | Modal r => ModalApp.fetchBalances r
  end.

Definition handleTransfer (v : AppRender) : Prog unit :=
  match v with
  | Sdk r => SdkApp.handleTransfer r
  | Modal r => ModalApp.handleTransfer r
  end.

(** A click on the submit button. *)
Definition clickTransfer (v : AppRender) : Prog unit :=
  match v with
  | Sdk r => SdkApp.clickTransfer r
  | Modal r => ModalApp.clickTransfer r
  end.

(** The handler of render [v] starts with the cells that [v] captured as the
    current cells, and with no history. *)
Definition dispatch {A : Type} (w : World)
    (handler : AppRender -> Prog A) (v : AppRender) : Final A :=
  run w (handler v) (cells v) [].

(** The guards at the head of [handleTransfer] let the submission through. *)
Definition validates (v : AppRender) : bool :=
  match v with
  | Sdk r =>
      negb (String.eqb (recipient (SdkApp.cells r)) ""
            || String.eqb (amount (SdkApp.cells r)) "")
  | Modal r =>
      negb (String.eqb (recipient (ModalApp.cells r)) ""
            || String.eqb (amount (ModalApp.cells r)) "")
      && negb (absent (ModalApp.walletProvider (ModalApp.hooks r)))
  end.

(** The cells with another value in [loading]. *)
Definition set_loading (b : bool) (s : State) : State := apply_update (SetLoading b) s.

(** The component rendered again, same session, over the cells [s]. *)
Definition rerender (s : State) (v : AppRender) : AppRender :=
  match v with
  | Sdk r => Sdk (SdkApp.mkRender (SdkApp.hooks r) s)
  | Modal r => Modal (ModalApp.mkRender (ModalApp.hooks r) s)
  end.

(** ** Handlers in flight *)

(** An async handler between two turns of the event loop: suspended on the
    promise of a library call, suspended on [await undefined], or over. *)
Inductive Task : Type :=
| Awaiting (T : Type) (c : Call T) (k : Result T -> Prog unit)
| Resuming (k : Prog unit)
| Settled (o : Outcome unit).
Arguments Awaiting {T} c k.

Definition is_settled (t : Task) : bool :=
  match t with
  | Settled _ => true
  | _ => false
  end.

(** A task with the state cells and the history as it left them. *)
Record Paused : Type := mkPaused { task : Task; store : State; log : Trace }.

(** Run a program up to its first [await]: the synchronous calls are
    answered on the spot, an awaited call suspends the program. *)
Fixpoint advance (w : World) (p : Prog unit) (s : State) (h : Trace) : Paused :=
  match p with
  | Ret a => mkPaused (Settled (Returned a)) s h
  | Throw e => mkPaused (Settled (Raised e)) s h
  | Vis c k =>
      if is_async c then mkPaused (Awaiting c k) s h
      else let r := w _ h c in advance w (k r) s (h ++ [EvCall c r])
  | Upd u k => advance w k (apply_update u s) (h ++ [EvSet u])
  | Mark f k => advance w k s (h ++ [EvEnter f])
  | Yield k => mkPaused (Resuming k) s h
  end.

(** The awaited promise settles and the task runs to its next [await]. *)
Definition resume (w : World) (t : Task) (s : State) (h : Trace) : Paused :=
  match t with
  | Awaiting c k => let r := w _ h c in advance w (k r) s (h ++ [EvCall c r])
  | Resuming k => advance w k s h
  | Settled o => mkPaused t s h
  end.

(** A lone task resumed until it is over, at most [n] times. *)
Fixpoint drive (n : nat) (w : World) (p : Paused) : Paused :=
  match n with
  | O => p
  | S n' =>
      if is_settled (task p) then p
      else drive n' w (resume w (task p) (store p) (log p))
  end.

(** Two tasks over the same cells, resumed in the order of a schedule. *)
Inductive Pick : Type := First | Second.

Record InFlight : Type := mkInFlight
  { first : Task; second : Task; shared : State; events : Trace }.

Fixpoint interleave (w : World) (schedule : list Pick) (f : InFlight) : InFlight :=
  match schedule with
  | [] => f
  | First :: rest =>
      let p := resume w (first f) (shared f) (events f) in
      interleave w rest (mkInFlight (task p) (second f) (store p) (log p))
  | Second :: rest =>
      let p := resume w (second f) (shared f) (events f) in
      interleave w rest (mkInFlight (first f) (task p) (store p) (log p))
  end.

(** A contract [transfer] call reached the signer. *)
Definition is_submission (e : Event) : bool :=
  match e with
  | EvCall c _ =>
      match c with
      | ContractTransfer _ _ _ => true
      | _ => false
      end
  | _ => false
  end.

Definition submissions (t : Trace) : nat := List.length (filter is_submission t).

(** ** Sample inputs *)

(** A world in which every library call succeeds. *)
Definition allGood : World := fun T h c =>
  match c in Call T return Result T with
  | SdkConnect _ => Resolved tt
  | Request _ _ _ => Resolved tt
  | NewBrowserProvider _ => Resolved 1
  | GetSigner _ => Resolved 2
  | NewContract _ _ _ => Resolved 3
  | GetBalance _ _ => Resolved (10 ^ 18)%Z
  | Decimals _ => Resolved 6%N
  | BalanceOf _ _ => Resolved (10 ^ 6)%Z
  | ParseUnits _ _ => Resolved 1500000%Z
  | ContractTransfer _ _ _ => Resolved 4
  | TxWait _ => Resolved tt
  | FormatEther _ => Resolved "1.0"
  | FormatUnits _ _ => Resolved "1.0"
  end.

Definition sdkSession : SdkApp.Session :=
  SdkApp.mkSession (Some 0) true false (Some 0) (Some "0x38") (Some "0xA11CE").

Definition modalSession : ModalApp.Session :=
  ModalApp.mkSession (Some "0xA11CE") true (Some 56%Z) (Some 0).

(** A filled form (an old message still in the error cell), and a form
    whose amount is still empty. *)
Definition filledForm : State :=
  mkState "0" "0" false "stale" "0xB0B" "1.5".
Definition noAmountForm : State :=
  mkState "0" "0" false "stale" "0xB0B" "".

(** Renders of the two versions over these forms. *)
Definition sdkFilled : AppRender := Sdk (SdkApp.mkRender sdkSession filledForm).
Definition modalFilled : AppRender := Modal (ModalApp.mkRender modalSession filledForm).
Definition sdkNoAmount : AppRender := Sdk (SdkApp.mkRender sdkSession noAmountForm).
Definition sdkFresh : AppRender := Sdk (SdkApp.mkRender sdkSession initialState).
Definition modalFresh : AppRender := Modal (ModalApp.mkRender modalSession initialState).

(** The filled form rendered while [loading] is true. *)
Definition sdkBusy : AppRender :=
  Sdk (SdkApp.mkRender sdkSession (set_loading true filledForm)).

(** The same world with the [formatEther] and [formatUnits] of ethers. *)
Definition withEthers : World := fun T h c =>
  match c in Call T return Result T with
  | FormatEther wei => formatEther wei
  | FormatUnits value decimals => formatUnits value decimals
  | c' => allGood _ h c'
  end.

(** Worlds in which one step fails. *)

(** The transaction is sent but reverts on chain. *)
Definition txReverts : World := fun T h c =>
  match c in Call T return Result T with
  | TxWait _ => Rejected (mkError "transaction execution reverted" (CodeStr "CALL_EXCEPTION"))
  | c' => allGood _ h c'
  end.

(** The native balance can be read, the token contract cannot. *)
Definition tokenReadDown : World := fun T h c =>
  match c in Call T return Result T with
  | Decimals _ =>
      if existsb (is_enter FnFetchBalances) h
      then Rejected (mkError "could not decode result data" (CodeStr "BAD_DATA"))
      else Resolved 6%N
  | c' => allGood _ h c'
  end.


(** ethers refuses to wrap an undefined provider. *)
Definition ethersChecksProvider : World := fun T h c =>
  match c in Call T return Result T with
  | NewBrowserProvider None =>
      Rejected (mkError "invalid EIP-1193 provider" (CodeStr "INVALID_ARGUMENT"))
  | c' => allGood _ h c'
  end.

(** A session whose provider handle is still undefined. *)
Definition sdkNoProvider : SdkApp.Session :=
  SdkApp.mkSession (Some 0) true false None (Some "0x38") (Some "0xA11CE").
Definition modalNoProvider : ModalApp.Session :=
  ModalApp.mkSession (Some "0xA11CE") true (Some 56%Z) None.

(** The filled form rendered over a session without provider. *)
Definition sdkUnprovided : AppRender := Sdk (SdkApp.mkRender sdkNoProvider filledForm).
Definition modalUnprovided : AppRender :=
  Modal (ModalApp.mkRender modalNoProvider filledForm).

(** ** Spec sentences the code departs from *)



(** ** Two clicks on the submit button *)

(** The first click runs its handler up to the first [await]; the component
    re-renders over the cells the handler left; the second click comes from
    that render.  Then the two take turns, seven awaits each. *)
Definition firstClick (w : World) (v : AppRender) : Paused :=
  advance w (clickTransfer v) (cells v) [].

Definition secondClick (w : World) (v : AppRender) : Paused :=
  advance w (clickTransfer (rerender (store (firstClick w v)) v))
          (store (firstClick w v)) (log (firstClick w v)).

Definition alternate : list Pick :=
  [First; Second; First; Second; First; Second; First; Second;
   First; Second; First; Second; First; Second].

Definition doubleClick (w : World) (v : AppRender) : InFlight :=
  interleave w alternate
    (mkInFlight (task (firstClick w v)) (task (secondClick w v))
                (store (secondClick w v)) (log (secondClick w v))).

(** ** Summaries of the two long handlers *)

(** Everything [fetchBalances] does and leaves behind, from any cells and
    after any history. *)
Definition refresh_post (s : State) (h : Trace) (f : Final unit) : Prop :=
  exists t,
    trace f = h ++ EvEnter FnFetchBalances :: t /\
    outcome f = Returned tt /\
    loading (final f) = loading s /\
    recipient (final f) = recipient s /\
    amount (final f) = amount s /\
    error (final f) =
      (if existsb is_rejected t then "Failed to fetch balances" else error s) /\
    (existsb is_rejected t = true -> usdtBalance (final f) = usdtBalance s) /\
    bnbBalance (final f) =
      match native_formatted t with Some v => v | None => bnbBalance s end /\
    existsb is_clear t = false /\
    (forall g, invocations g t = 0) /\
    existsb is_transfer_resolved t = false /\
    existsb is_wait_resolved t = false /\
    transfer_failure t = None.

(** What an execution of [handleTransfer] guarantees, by how far it got:
    the transfer confirmed, the [transfer] call or the wait rejected, any of
    its own calls rejected; [valid] tells whether the guards let it through. *)
Definition transfer_post (s0 : State) (valid : bool) (f : Final unit) : Prop :=
  outcome f = Returned tt /\
  (transfer_confirmed (trace f) = true ->
     recipient (final f) = "" /\ amount (final f) = "" /\
     loading (final f) = false /\
     invocations FnFetchBalances (trace f) = 1 /\
     error (final f) =
       (if refresh_failed (trace f) then "Failed to fetch balances" else "")) /\
  (forall e, transfer_failure (trace f) = Some e ->
     recipient (final f) = recipient s0 /\ amount (final f) = amount s0 /\
     error (final f) = message e /\ loading (final f) = false) /\
  (forall e, handler_failure (trace f) = Some e ->
     recipient (final f) = recipient s0 /\ amount (final f) = amount s0 /\
     error (final f) = message e /\ loading (final f) = false) /\
  (valid = true -> error_cleared_at_start (trace f) = true) /\
  (valid = false ->
     existsb is_call (trace f) = false /\
     existsb is_clear (trace f) = false /\
     loading (final f) = loading s0 /\
     (error (final f) = "Please enter recipient address and amount" \/
      error (final f) = "Please connect your wallet")) /\
  (refresh_failed (trace f) = true -> transfer_confirmed (trace f) = true).



(** ** Proof automation *)

(** Symbolic execution: case on the answer of the world to the next call. *)
Ltac next_call w :=
  match goal with
  | |- context [w ?T ?h ?c] => destruct (w T h c)
  end.

Ltac exec w := simpl; repeat (next_call w; simpl).

Ltac close_refresh :=
  eexists; split;
  [ repeat rewrite <- app_assoc; simpl; reflexivity
  | simpl; repeat split; try reflexivity; try discriminate;
    try (intros g; destruct g; reflexivity) ].

(** Goals over an explicit trace: split, introduce, compute. *)
Ltac finish :=
  simpl;
  repeat first
    [ match goal with
      | |- forall _, _ =>
          let H := fresh in
          intro H; simpl in H; try discriminate H;
          try (injection H as H; subst)
      | |- _ /\ _ => split
      | |- _ = _ => reflexivity
      end
    | (left; reflexivity)
    | (right; reflexivity) ].

(** The path through the refresh, from the facts [refresh_post] gives. *)
Ltac close_confirmed Hi He Hf Happ :=
  repeat rewrite <- app_assoc; simpl;
  split; [reflexivity | split; [| split; [| split; [| split; [| split]]]]];
  [ intros _; repeat split;
    [ unfold invocations in *; simpl; rewrite filter_app, length_app; simpl;
      rewrite (Hi FnFetchBalances); reflexivity
    | unfold refresh_failed; simpl; rewrite existsb_app; simpl;
      rewrite orb_false_r; exact He ]
  | let e := fresh "e" in let E := fresh "E" in
    intros e E; rewrite Happ, Hf in E; discriminate E
  | let e := fresh "e" in let E := fresh "E" in
    intros e E; discriminate E
  | reflexivity
  | discriminate
  | intros _; reflexivity ].



(** Symbolic execution in a world that formats as ethers does. *)
Ltac exec_ethers w Hfmt :=
  simpl;
  repeat (first
            [ match goal with
              | |- context [w _ ?h (FormatEther ?x)] =>
                  rewrite (proj1 (Hfmt h x 0%N));
                  let E := fresh "E" in destruct (formatEther x) eqn:E
              | |- context [w _ ?h (FormatUnits ?x ?d)] =>
                  rewrite (proj2 (Hfmt h x d));
                  let E := fresh "E" in destruct (formatUnits x d) eqn:E
              end
            | next_call w ];
          simpl).

(** A read of the trace fixes the value that was formatted. *)
Ltac close_display :=
  split;
  (let H := fresh "H" in
   intros H; simpl in H; try discriminate H;
   repeat match goal with
     | H : _ /\ _ |- _ => destruct H
     | H : Some _ = Some _ |- _ => injection H as H; subst
     end;
   repeat match goal with
     | E : formatEther ?x = _ |- _ =>
         tryif is_var x then clear E else (vm_compute in E; revert E)
     | E : formatUnits ?x ?d = _ |- _ =>
         tryif first [is_var x | is_var d] then clear E
         else (vm_compute in E; revert E)
     end;
   intros;
   repeat match goal with
     | E : Resolved _ = Rejected _ |- _ => discriminate E
     | E : Resolved _ = Resolved _ |- _ => injection E as E; subst
     end;
   try discriminate;
   vm_compute; reflexivity).

(** ** Further observations: the session, re-renders, kinds of calls *)

(** The guard at the head of [fetchBalances] lets the fetch through. *)
Definition session_ready (v : AppRender) : bool :=
  match v with
  | Sdk r =>
      negb (falsy (SdkApp.account (SdkApp.hooks r))
            || absent (SdkApp.provider (SdkApp.hooks r)))
  | Modal r =>
      negb (negb (ModalApp.isConnected (ModalApp.hooks r))
            || absent (ModalApp.walletProvider (ModalApp.hooks r))
            || falsy (ModalApp.address (ModalApp.hooks r)))
  end.

(** The account of the session: [account], resp. [address]. *)
Definition sessionAccount (v : AppRender) : option string :=
  match v with
  | Sdk r => SdkApp.account (SdkApp.hooks r)
  | Modal r => ModalApp.address (ModalApp.hooks r)
  end.

(** [connected], resp. [isConnected]. *)
Definition sessionConnected (v : AppRender) : bool :=
  match v with
  | Sdk r => SdkApp.connected (SdkApp.hooks r)
  | Modal r => ModalApp.isConnected (ModalApp.hooks r)
  end.

(** The [useEffect] of either version. *)
Definition effect (v : AppRender) : Prog unit :=
  match v with
  | Sdk r => SdkApp.effect r
  | Modal r => ModalApp.effect r
  end.

(** A call that needs the signer or moves funds: [getSigner], [parseUnits],
    the contract [transfer], [tx.wait()]. *)
Definition is_signing (e : Event) : bool :=
  match e with
  | EvCall c _ =>
      match c with
      | GetSigner _ | ParseUnits _ _ | ContractTransfer _ _ _ | TxWait _ => true
      | _ => false
      end
  | _ => false
  end.

(** A wallet request ([provider.request]) or an SDK connection. *)
Definition is_wallet_call (e : Event) : bool :=
  match e with
  | EvCall c _ =>
      match c with
      | Request _ _ _ | SdkConnect _ => true
      | _ => false
      end
  | _ => false
  end.

(** A contract, when one is constructed, is the USDT contract with the
    three-function ABI. *)
Definition uses_usdt (e : Event) : Prop :=
  match e with
  | EvCall c _ =>
      match c with
      | NewContract address abi _ => address = USDT_ADDRESS /\ abi = USDT_ABI
      | _ => True
      end
  | _ => True
  end.

(** A wallet request, when one is made, is a switch to chain 0x38 or the
    registration of the BSC descriptor. *)
Definition targets_bsc (e : Event) : Prop :=
  match e with
  | EvCall c _ =>
      match c with
      | Request _ m ps =>
          (m = "wallet_switchEthereumChain" /\ ps = [ChainRef "0x38"]) \/
          (m = "wallet_addEthereumChain" /\ ps = [ChainDesc BSC])
      | _ => True
      end
  | _ => True
  end.

(** A balance read, when one is made, asks for the account [a]. *)
Definition reads_account (a : string) (e : Event) : Prop :=
  match e with
  | EvCall c _ =>
      match c with
      | GetBalance _ account => account = a
      | BalanceOf _ account => account = a
      | _ => True
      end
  | _ => True
  end.

(** The number of [wallet_switchEthereumChain] requests. *)
Definition is_switch_request (e : Event) : bool :=
  match e with
  | EvCall c _ =>
      match c with
      | Request _ m _ => String.eqb m "wallet_switchEthereumChain"
      | _ => false
      end
  | _ => false
  end.

Definition switch_requests (t : Trace) : nat :=
  List.length (filter is_switch_request t).

(** ** Reaching the transfer *)

(** How far an execution of [handleTransfer] gets: past its guards, either
    one of its own steps is rejected or the transfer is confirmed; at most
    one [transfer] call is ever made. *)
Definition reach_post (valid : bool) (f : Final unit) : Prop :=
  (valid = true -> handler_failure (trace f) = None ->
     transfer_confirmed (trace f) = true /\ submissions (trace f) = 1) /\
  (valid = true -> transfer_confirmed (trace f) = false ->
     exists e, handler_failure (trace f) = Some e) /\
  submissions (trace f) <= 1.

(** A world in which the provider and the contract can be constructed and
    the three chain reads return [native], [decimals] and [token]. *)
Definition chain_answers (w : World) (native : Z) (decimals : N) (token : Z) : Prop :=
  (forall h p, exists bp, w _ h (NewBrowserProvider p) = Resolved bp) /\
  (forall h a abi r, exists c, w _ h (NewContract a abi r) = Resolved c) /\
  (forall h bp a, w _ h (GetBalance bp a) = Resolved native) /\
  (forall h c, w _ h (Decimals c) = Resolved decimals) /\
  (forall h c a, w _ h (BalanceOf c a) = Resolved token).

(** ** The loading flag of a handler in flight *)

(** A program that never calls [setLoading]. *)
Inductive no_loading {A : Type} : Prog A -> Prop :=
| nl_ret a : no_loading (Ret a)
| nl_throw e : no_loading (Throw e)
| nl_vis T (c : Call T) k : (forall r, no_loading (k r)) -> no_loading (Vis c k)
| nl_upd u k :
    (match u with SetLoading _ => False | _ => True end) ->
    no_loading k -> no_loading (Upd u k)
| nl_mark f k : no_loading k -> no_loading (Mark f k)
| nl_yield k : no_loading k -> no_loading (Yield k).

(** The flag of a paused handler: [before] while it is suspended, false once
    it is over. *)
Definition flag_of (p : Paused) (before : bool) : Prop :=
  loading (store p) = if is_settled (task p) then false else before.

Ltac close_reach :=
  simpl; split; [| split];
  [ let V := fresh in let H := fresh in
    intros V H; simpl in H;
    first [ discriminate V | discriminate H | (split; reflexivity) ]
  | let V := fresh in let H := fresh in
    intros V H; simpl in H;
    first [ discriminate V | discriminate H | (eexists; reflexivity) ]
  | vm_compute; lia ].

(** Symbolic execution in a world whose answers are given by hypotheses;
    [Fe] and [Fu] evaluate the two formatting calls. *)
Ltac exec_answers w Hfmt Hbp Hnc Hgb Hd Hbo Fe Fu :=
  repeat (cbn [run bind try_catch try_finally call set enter app apply_update];
          match goal with
          | |- context [w _ ?h (NewBrowserProvider ?p)] =>
              let x := fresh "bp" in let E := fresh "E" in
              destruct (Hbp h p) as [x E]; rewrite E; clear E
          | |- context [w _ ?h (NewContract ?a ?abi ?r)] =>
              let x := fresh "c" in let E := fresh "E" in
              destruct (Hnc h a abi r) as [x E]; rewrite E; clear E
          | |- context [w _ ?h (GetBalance ?b ?a)] => rewrite (Hgb h b a)
          | |- context [w _ ?h (Decimals ?c)] => rewrite (Hd h c)
          | |- context [w _ ?h (BalanceOf ?c ?a)] => rewrite (Hbo h c a)
          | |- context [w _ ?h (FormatEther ?x)] =>
              rewrite (proj1 (Hfmt h x 0%N)), Fe
          | |- context [w _ ?h (FormatUnits ?x ?d)] =>
              rewrite (proj2 (Hfmt h x d)), Fu
          end).

Ltac no_loading_tac :=
  repeat (simpl;
          match goal with
          | |- True => exact I
          | |- no_loading (Vis _ _) => constructor; intros [? | ?]
          | |- no_loading (Upd _ _) => constructor; [exact I |]
          | |- no_loading (if ?b then _ else _) => destruct b
          | |- no_loading (match ?x with _ => _ end) => destruct x
          | |- no_loading (bind (if ?b then _ else _) _) => destruct b
          | |- no_loading (try_catch (bind (if ?b then _ else _) _) _) => destruct b
          | |- no_loading _ => constructor
          end).

(** Symbolic execution of a whole handler, the balance refresh included. *)
Ltac exec_all w :=
  simpl;
  repeat (first
            [ next_call w
            | match goal with
              | |- context [code_is ?e 4902] =>
                  let E := fresh "E" in
                  destruct (code_is e 4902) eqn:E; try congruence
              end ];
          simpl);
  repeat match goal with u : unit |- _ => destruct u end.

(** Every event of an explicit trace satisfies a predicate. *)
Ltac all_events :=
  simpl;
  repeat match goal with |- Forall _ _ => constructor end;
  simpl; try exact I; try reflexivity; try assumption;
  try (split; reflexivity);
  try (left; split; reflexivity);
  try (right; split; reflexivity).

(** ** Summaries for the further properties *)

(** When a [transfer] call is made it is the sixth library call, after the
    provider, the signer, the USDT contract over that signer, its decimals
    and the parsed amount; no other [transfer] call follows. *)
Definition submission_post (v : AppRender) (f : Final unit) : Prop :=
  existsb is_submission (trace f) = true ->
  exists bp sg c d a r rest,
    calls (trace f) =
      EvCall (NewBrowserProvider (providerHandle v)) (Resolved bp)
      :: EvCall (GetSigner bp) (Resolved sg)
      :: EvCall (NewContract USDT_ADDRESS USDT_ABI sg) (Resolved c)
      :: EvCall (Decimals c) (Resolved d)
      :: EvCall (ParseUnits (amount (cells v)) d) (Resolved a)
      :: EvCall (ContractTransfer c (recipient (cells v)) a) r
      :: rest /\
    submissions rest = 0.

(** What [handleTransfer] leaves in the cells besides the form and the
    error. *)
Definition frame_post (v : AppRender) (f : Final unit) : Prop :=
  outcome f = Returned tt /\
  loading (final f) = (if validates v then false else loading (cells v)) /\
  (transfer_confirmed (trace f) = false ->
   bnbBalance (final f) = bnbBalance (cells v) /\
   usdtBalance (final f) = usdtBalance (cells v) /\
   invocations FnFetchBalances (trace f) = 0).

(** What [connect] does besides the error cell. *)
Definition connect_frame_post (r : SdkApp.Render) (f : Final unit) : Prop :=
  outcome f = Returned tt /\
  loading (final f) = false /\
  bnbBalance (final f) = bnbBalance (SdkApp.cells r) /\
  usdtBalance (final f) = usdtBalance (SdkApp.cells r) /\
  recipient (final f) = recipient (SdkApp.cells r) /\
  amount (final f) = amount (SdkApp.cells r) /\
  forallb is_wallet_call (calls (trace f)) = true /\
  Forall targets_bsc (trace f) /\
  (forall e, connect_failure (trace f) = Some e ->
     invocations FnSwitchToBNBChain (trace f) = 0 /\
     List.length (calls (trace f)) = 1) /\
  (connect_failure (trace f) = None ->
     invocations FnSwitchToBNBChain (trace f) = 1 /\
     switch_requests (trace f) =
       (if absent (SdkApp.provider (SdkApp.hooks r)) then 0 else 1)).

(** What [switchToBNBChain] requests and when it changes nothing. *)
Definition switch_more_post (v : AppRender) (f : Final unit) : Prop :=
  switch_requests (trace f) = (if absent (providerHandle v) then 0 else 1) /\
  List.length (calls (trace f)) <= 2 /\
  forallb is_wallet_call (calls (trace f)) = true /\
  Forall targets_bsc (trace f) /\
  (existsb is_rejected (trace f) = false -> final f = cells v) /\
  (providerHandle v = None -> calls (trace f) = [] /\ final f = cells v) /\
  (existsb is_switch_rejected_other (trace f) = true ->
     add_chain_requests (trace f) = [] /\
     error (final f) = "Failed to switch network").

(** The kinds of calls of a balance fetch. *)
Definition fetch_kinds_post (v : AppRender) (f : Final unit) : Prop :=
  existsb is_call (trace f) = session_ready v /\
  existsb is_signing (trace f) = false /\
  existsb is_wallet_call (trace f) = false /\
  Forall uses_usdt (trace f) /\
  (forall a, sessionAccount v = Some a -> Forall (reads_account a) (trace f)).

(** The kinds of calls of a transfer submission. *)
Definition transfer_kinds_post (v : AppRender) (f : Final unit) : Prop :=
  existsb is_call (trace f) = validates v /\
  existsb is_wallet_call (trace f) = false /\
  Forall uses_usdt (trace f) /\
  (forall a, sessionAccount v = Some a -> Forall (reads_account a) (trace f)).

Ltac close_submission :=
  let H := fresh "H" in
  intros H; simpl in H;
  first [ discriminate H
        | do 7 eexists; split; [simpl; reflexivity | reflexivity] ].

Ltac close_frame :=
  simpl; split; [reflexivity | split; [reflexivity |]];
  let H := fresh "H" in
  intros H; simpl in H;
  first [ discriminate H | repeat split; reflexivity ].

Ltac close_more :=
  simpl;
  repeat first
    [ match goal with
      | |- forall _, _ =>
          let H := fresh in
          intro H; simpl in H; try discriminate H
      | H : code_is ?e 4902 = _ |- context [code_is ?e 4902] => rewrite H; simpl
      | H : code_is ?e 4902 = _, H' : context [code_is ?e 4902] |- _ =>
          rewrite H in H'; simpl in H'; try discriminate H'
      | |- _ /\ _ => split
      | |- _ = _ => reflexivity
      | |- Forall _ _ => all_events
      | |- _ <= _ => vm_compute; lia
      end ].

Ltac close_kinds Ha :=
  simpl; repeat split;
  try (let a := fresh "a" in intros a Ha; try rewrite Ha);
  all_events.

(** A wallet that refuses the connection; a session without account. *)
Definition walletRefuses : World := fun T h c =>
  match c in Call T return Result T with
  | SdkConnect _ => Rejected (mkError "User rejected the request." (CodeNum 4001))
  | c' => allGood _ h c'
  end.

(** The wallet refuses to switch, for a reason other than an unknown chain. *)
Definition switchRefused : World := fun T h c =>
  match c in Call T return Result T with
  | Request _ _ _ => Rejected (mkError "User rejected the request." (CodeNum 4001))
  | c' => allGood _ h c'
  end.

Definition sdkNoAccount : AppRender :=
  Sdk (SdkApp.mkRender
         (SdkApp.mkSession (Some 0) true false (Some 0) (Some "0x38") None)
         filledForm).

(** Sessions that are not connected. *)
Definition sdkDisconnected : AppRender :=
  Sdk (SdkApp.mkRender
         (SdkApp.mkSession (Some 0) false false (Some 0) None None)
         initialState).
Definition modalDisconnected : AppRender :=
  Modal (ModalApp.mkRender (ModalApp.mkSession None false None None) initialState).
(** * Properties *)

(** ** Laws of the interpreter *)

Section RunLaws.

Variable w : World.

Lemma run_bind {A B : Type} (p : Prog A) (f : A -> Prog B) :
  forall s h,
    run w (bind p f) s h =
    match outcome (run w p s h) with
    | Returned a => run w (f a) (final (run w p s h)) (trace (run w p s h))
    | Raised e => mkFinal (Raised e) (final (run w p s h)) (trace (run w p s h))
    end.
Proof.
  induction p as [a | e | T c k IH | u k IH | g k IH | k IH]; intros s h; simpl;
    try reflexivity; auto.
Qed.

Lemma run_try_catch {A : Type} (p : Prog A) (hd : JsError -> Prog A) :
  forall s h,
    run w (try_catch p hd) s h =
    match outcome (run w p s h) with
    | Returned a => run w p s h
    | Raised e => run w (hd e) (final (run w p s h)) (trace (run w p s h))
    end.
Proof.
  induction p as [a | e | T c k IH | u k IH | g k IH | k IH]; intros s h; simpl;
    try reflexivity; auto.
Qed.

Lemma run_try_finally {A : Type} (p : Prog A) (f : Prog unit) :
  forall s h,
    run w (try_finally p f) s h =
    let m := run w p s h in
    let n := run w f (final m) (trace m) in
    match outcome n with
    | Returned _ => mkFinal (outcome m) (final n) (trace n)
    | Raised e => mkFinal (Raised e) (final n) (trace n)
    end.
Proof.
  induction p as [a | e | T c k IH | u k IH | g k IH | k IH]; intros s h; simpl;
    auto; rewrite run_bind; destruct (outcome (run w f s h)); reflexivity.
Qed.

(** An execution only ever appends to the history. *)
Lemma run_extends {A : Type} (p : Prog A) :
  forall s h, exists t, trace (run w p s h) = h ++ t.
Proof.
  induction p as [a | e | T c k IH | u k IH | g k IH | k IH]; intros s h; simpl.
  - exists []. now rewrite app_nil_r.
  - exists []. now rewrite app_nil_r.
  - destruct (IH (w T h c) s (h ++ [EvCall c (w T h c)])) as [t Ht].
    exists (EvCall c (w T h c) :: t). rewrite Ht, <- app_assoc. reflexivity.
  - destruct (IH (apply_update u s) (h ++ [EvSet u])) as [t Ht].
    exists (EvSet u :: t). rewrite Ht, <- app_assoc. reflexivity.
  - destruct (IH s (h ++ [EvEnter g])) as [t Ht].
    exists (EvEnter g :: t). rewrite Ht, <- app_assoc. reflexivity.
  - apply IH.
Qed.

End RunLaws.

(** ** Validation of the transfer form *)

Lemma handleTransfer_missing_input_sdk w r :
  recipient (SdkApp.cells r) = "" \/ amount (SdkApp.cells r) = "" ->
  run w (SdkApp.handleTransfer r) (SdkApp.cells r) [] =
  mkFinal (Returned tt)
    (apply_update (SetError "Please enter recipient address and amount") (SdkApp.cells r))
    [EvEnter FnHandleTransfer;
     EvSet (SetError "Please enter recipient address and amount")].
Proof.
  intros H.
  assert (C : String.eqb (recipient (SdkApp.cells r)) ""
              || String.eqb (amount (SdkApp.cells r)) "" = true)
    by (destruct H as [E | E]; rewrite E; simpl; rewrite ?orb_true_r; reflexivity).
  unfold SdkApp.handleTransfer; simpl; rewrite C; reflexivity.
Qed.

Lemma handleTransfer_missing_input_modal w r :
  recipient (ModalApp.cells r) = "" \/ amount (ModalApp.cells r) = "" ->
  run w (ModalApp.handleTransfer r) (ModalApp.cells r) [] =
  mkFinal (Returned tt)
    (apply_update (SetError "Please enter recipient address and amount") (ModalApp.cells r))
    [EvEnter FnHandleTransfer;
     EvSet (SetError "Please enter recipient address and amount")].
Proof.
  intros H.
  assert (C : String.eqb (recipient (ModalApp.cells r)) ""
              || String.eqb (amount (ModalApp.cells r)) "" = true)
    by (destruct H as [E | E]; rewrite E; simpl; rewrite ?orb_true_r; reflexivity).
  unfold ModalApp.handleTransfer; simpl; rewrite C; reflexivity.
Qed.

(** C1. When the recipient or the amount of the form is the empty string,
    [handleTransfer] (in both versions) returns normally, its only effect on
    the cells is to set [error] to the validation message, every other cell
    keeping its value, and it makes no call into the wallet or ethers
    libraries. *)
Theorem handleTransfer_missing_input :
  forall (w : World) (v : AppRender),
    recipient (cells v) = "" \/ amount (cells v) = "" ->
    let f := dispatch w handleTransfer v in
    outcome f = Returned tt /\
    error (final f) = "Please enter recipient address and amount" /\
    bnbBalance (final f) = bnbBalance (cells v) /\
    usdtBalance (final f) = usdtBalance (cells v) /\
    loading (final f) = loading (cells v) /\
    recipient (final f) = recipient (cells v) /\
    amount (final f) = amount (cells v) /\
    calls (trace f) = [].
Proof.
  intros w [r | r] H; unfold dispatch; cbv zeta;
    cbn [handleTransfer cells] in *;
    [ rewrite (handleTransfer_missing_input_sdk w r H)
    | rewrite (handleTransfer_missing_input_modal w r H) ];
    cbn; repeat split; reflexivity.
Qed.

Lemma handleTransfer_missing_input_witness :
  amount (cells sdkNoAmount) = "" /\
  error (final (dispatch allGood handleTransfer sdkNoAmount))
    = "Please enter recipient address and amount" /\
  recipient (final (dispatch allGood handleTransfer sdkNoAmount)) = "0xB0B" /\
  calls (trace (dispatch allGood handleTransfer sdkNoAmount)) = [].
Proof.
  pose proof (handleTransfer_missing_input allGood sdkNoAmount
                (or_intror eq_refl)) as H.
  cbv zeta in H.
  destruct H as (_ & He & _ & _ & _ & Hr & _ & Hc).
  split; [reflexivity |]. repeat split; assumption.
Defined.

(** ** The balance refresh *)




Lemma fetchBalances_run_sdk w r s h :
  refresh_post s h (run w (SdkApp.fetchBalances r) s h).
Proof.
  unfold refresh_post, SdkApp.fetchBalances.
  destruct (falsy (SdkApp.account (SdkApp.hooks r))
            || absent (SdkApp.provider (SdkApp.hooks r))).
  - simpl. close_refresh.
  - exec w; close_refresh.
Qed.

Lemma fetchBalances_run_modal w r s h :
  refresh_post s h (run w (ModalApp.fetchBalances r) s h).
Proof.
  unfold refresh_post, ModalApp.fetchBalances.
  destruct (negb (ModalApp.isConnected (ModalApp.hooks r))
            || absent (ModalApp.walletProvider (ModalApp.hooks r))
            || falsy (ModalApp.address (ModalApp.hooks r))).
  - simpl. close_refresh.
  - exec w; close_refresh.
Qed.

(** ** The transfer submission *)

Lemma transfer_failure_app t u :
  transfer_failure (t ++ u) =
  match transfer_failure t with
  | Some e => Some e
  | None => transfer_failure u
  end.
Proof.
  induction t as [| [u0 | T c r | g] t IH]; simpl; auto.
  destruct c, r; auto.
Qed.

Lemma invocations_app g t u :
  invocations g (t ++ u) = invocations g t + invocations g u.
Proof. unfold invocations. now rewrite filter_app, length_app. Qed.



Section TransferSdk.

Opaque SdkApp.fetchBalances.

Lemma handleTransfer_run_sdk w r :
  transfer_post (SdkApp.cells r) (validates (Sdk r))
    (run w (SdkApp.handleTransfer r) (SdkApp.cells r) []).
Proof.
  unfold transfer_post, SdkApp.handleTransfer, validates.
  destruct (String.eqb (recipient (SdkApp.cells r)) ""
            || String.eqb (amount (SdkApp.cells r)) "").
  - finish.
  - exec w; try solve [finish].
    match goal with
    | |- context [run w _ ?s ?h] => set (s1 := s); set (h1 := h)
    end.
    rewrite run_try_finally, run_try_catch, run_bind. cbv zeta.
    destruct (fetchBalances_run_sdk w r s1 h1)
      as (t & Ht & Ho & Hl & Hr & Ha & He & _ & _ & _ & Hi & _ & _ & Hf).
    destruct (run w (SdkApp.fetchBalances r) s1 h1) as [o fs ft].
    simpl in Ht, Ho, Hl, Hr, Ha, He. subst o ft. simpl.
    close_confirmed Hi He Hf (transfer_failure_app t).
Qed.

Transparent SdkApp.fetchBalances.

End TransferSdk.

Section TransferModal.

Opaque ModalApp.fetchBalances.

Lemma handleTransfer_run_modal w r :
  transfer_post (ModalApp.cells r) (validates (Modal r))
    (run w (ModalApp.handleTransfer r) (ModalApp.cells r) []).
Proof.
  unfold transfer_post, ModalApp.handleTransfer, validates.
  destruct (String.eqb (recipient (ModalApp.cells r)) ""
            || String.eqb (amount (ModalApp.cells r)) "").
  - finish.
  - destruct (absent (ModalApp.walletProvider (ModalApp.hooks r))).
    + finish.
    + exec w; try solve [finish].
      match goal with
      | |- context [run w _ ?s ?h] => set (s1 := s); set (h1 := h)
      end.
      rewrite run_try_finally, run_try_catch, run_bind. cbv zeta.
      destruct (fetchBalances_run_modal w r s1 h1)
        as (t & Ht & Ho & Hl & Hr & Ha & He & _ & _ & _ & Hi & _ & _ & Hf).
      destruct (run w (ModalApp.fetchBalances r) s1 h1) as [o fs ft].
      simpl in Ht, Ho, Hl, Hr, Ha, He. subst o ft. simpl.
      close_confirmed Hi He Hf (transfer_failure_app t).
Qed.

Transparent ModalApp.fetchBalances.

End TransferModal.

Lemma handleTransfer_run w v :
  transfer_post (cells v) (validates v) (dispatch w handleTransfer v).
Proof.
  destruct v as [r | r]; unfold dispatch; cbn [handleTransfer cells].
  - apply handleTransfer_run_sdk.
  - apply handleTransfer_run_modal.
Qed.

Lemma handleTransfer_reach_sdk w r :
  reach_post (validates (Sdk r)) (run w (SdkApp.handleTransfer r) (SdkApp.cells r) []).
Proof.
  unfold reach_post, validates, SdkApp.handleTransfer, SdkApp.fetchBalances.
  destruct (String.eqb (recipient (SdkApp.cells r)) ""
            || String.eqb (amount (SdkApp.cells r)) "").
  - close_reach.
  - destruct (falsy (SdkApp.account (SdkApp.hooks r))
              || absent (SdkApp.provider (SdkApp.hooks r)));
      exec w; close_reach.
Qed.

Lemma handleTransfer_reach_modal w r :
  reach_post (validates (Modal r)) (run w (ModalApp.handleTransfer r) (ModalApp.cells r) []).
Proof.
  unfold reach_post, validates, ModalApp.handleTransfer, ModalApp.fetchBalances.
  destruct (String.eqb (recipient (ModalApp.cells r)) ""
            || String.eqb (amount (ModalApp.cells r)) "").
  - close_reach.
  - destruct (absent (ModalApp.walletProvider (ModalApp.hooks r))).
    + close_reach.
    + destruct (negb (ModalApp.isConnected (ModalApp.hooks r))
                || false
                || falsy (ModalApp.address (ModalApp.hooks r)));
        exec w; close_reach.
Qed.

Lemma handleTransfer_reach w v :
  reach_post (validates v) (dispatch w handleTransfer v).
Proof.
  destruct v as [r | r]; unfold dispatch; cbn [handleTransfer cells].
  - apply handleTransfer_reach_sdk.
  - apply handleTransfer_reach_modal.
Qed.

(** C2. In every execution of [handleTransfer] (both versions) in which the
    contract [transfer] call and the confirmation wait both succeed, the
    recipient and amount cells end as the empty string and [fetchBalances]
    is entered exactly once.  Such executions are the ones of a form that
    passes the guards and whose own steps are not rejected: then the
    transfer is confirmed. *)
Theorem handleTransfer_success_clears_form :
  forall (w : World) (v : AppRender),
    let f := dispatch w handleTransfer v in
    (transfer_confirmed (trace f) = true ->
     recipient (final f) = "" /\
     amount (final f) = "" /\
     invocations FnFetchBalances (trace f) = 1) /\
    (validates v = true -> handler_failure (trace f) = None ->
     transfer_confirmed (trace f) = true).
Proof.
  intros w v f. split.
  - intros H.
    destruct (handleTransfer_run w v) as (_ & Hok & _).
    destruct (Hok H) as (Hr & Ha & _ & Hi & _).
    repeat split; assumption.
  - intros V H.
    destruct (handleTransfer_reach w v) as (Hreach & _).
    destruct (Hreach V H) as (Hc & _). exact Hc.
Qed.

Lemma handleTransfer_success_clears_form_witness :
  (validates sdkFilled = true /\
   handler_failure (trace (dispatch allGood handleTransfer sdkFilled)) = None /\
   recipient (final (dispatch allGood handleTransfer sdkFilled)) = "" /\
   amount (final (dispatch allGood handleTransfer sdkFilled)) = "" /\
   invocations FnFetchBalances (trace (dispatch allGood handleTransfer sdkFilled)) = 1) /\
  (validates modalFilled = true /\
   handler_failure (trace (dispatch allGood handleTransfer modalFilled)) = None /\
   recipient (final (dispatch allGood handleTransfer modalFilled)) = "" /\
   amount (final (dispatch allGood handleTransfer modalFilled)) = "" /\
   invocations FnFetchBalances (trace (dispatch allGood handleTransfer modalFilled)) = 1).
Proof.
  split.
  - split; [reflexivity |]. split; [reflexivity |].
    destruct (handleTransfer_success_clears_form allGood sdkFilled) as [Hclear Hreach].
    apply Hclear. apply Hreach; reflexivity.
  - split; [reflexivity |]. split; [reflexivity |].
    destruct (handleTransfer_success_clears_form allGood modalFilled) as [Hclear Hreach].
    apply Hclear. apply Hreach; reflexivity.
Defined.

(** C3. In every execution of [handleTransfer] (both versions) in which one
    of its own steps is rejected with an error [e] (the [transfer] call or
    the confirmation wait in particular, and as well the provider, the
    signer, [decimals] or [parseUnits]), the recipient and amount cells end
    with the values they had at invocation and the error cell ends as
    [e.message].  A form that passes the guards and whose transfer is not
    confirmed ends in such a failure. *)
Theorem handleTransfer_failure_keeps_form :
  forall (w : World) (v : AppRender),
    let f := dispatch w handleTransfer v in
    (forall e, transfer_failure (trace f) = Some e ->
       recipient (final f) = recipient (cells v) /\
       amount (final f) = amount (cells v) /\
       error (final f) = message e) /\
    (forall e, handler_failure (trace f) = Some e ->
       recipient (final f) = recipient (cells v) /\
       amount (final f) = amount (cells v) /\
       error (final f) = message e) /\
    (validates v = true -> transfer_confirmed (trace f) = false ->
       exists e, handler_failure (trace f) = Some e).
Proof.
  intros w v f.
  destruct (handleTransfer_run w v) as (_ & _ & Hko & Hho & _).
  destruct (handleTransfer_reach w v) as (_ & Hfail & _).
  split; [| split].
  - intros e H. destruct (Hko e H) as (Hr & Ha & He & _). repeat split; assumption.
  - intros e H. destruct (Hho e H) as (Hr & Ha & He & _). repeat split; assumption.
  - exact Hfail.
Qed.

Lemma handleTransfer_failure_keeps_form_witness :
  (transfer_failure (trace (dispatch txReverts handleTransfer sdkFilled))
     = Some (mkError "transaction execution reverted" (CodeStr "CALL_EXCEPTION")) /\
   recipient (final (dispatch txReverts handleTransfer sdkFilled)) = "0xB0B" /\
   amount (final (dispatch txReverts handleTransfer sdkFilled)) = "1.5" /\
   error (final (dispatch txReverts handleTransfer sdkFilled))
     = "transaction execution reverted") /\
  (transfer_failure (trace (dispatch txReverts handleTransfer modalFilled))
     = Some (mkError "transaction execution reverted" (CodeStr "CALL_EXCEPTION")) /\
   recipient (final (dispatch txReverts handleTransfer modalFilled)) = "0xB0B" /\
   amount (final (dispatch txReverts handleTransfer modalFilled)) = "1.5" /\
   error (final (dispatch txReverts handleTransfer modalFilled))
     = "transaction execution reverted") /\
  (handler_failure (trace (dispatch ethersChecksProvider handleTransfer sdkUnprovided))
     = Some (mkError "invalid EIP-1193 provider" (CodeStr "INVALID_ARGUMENT")) /\
   recipient (final (dispatch ethersChecksProvider handleTransfer sdkUnprovided)) = "0xB0B" /\
   amount (final (dispatch ethersChecksProvider handleTransfer sdkUnprovided)) = "1.5" /\
   error (final (dispatch ethersChecksProvider handleTransfer sdkUnprovided))
     = "invalid EIP-1193 provider").
Proof.
  split; [| split].
  - split; [reflexivity |].
    destruct (handleTransfer_failure_keeps_form txReverts sdkFilled) as (Ht & _ & _).
    apply (Ht (mkError "transaction execution reverted" (CodeStr "CALL_EXCEPTION"))).
    reflexivity.
  - split; [reflexivity |].
    destruct (handleTransfer_failure_keeps_form txReverts modalFilled) as (Ht & _ & _).
    apply (Ht (mkError "transaction execution reverted" (CodeStr "CALL_EXCEPTION"))).
    reflexivity.
  - split; [reflexivity |].
    destruct (handleTransfer_failure_keeps_form ethersChecksProvider sdkUnprovided)
      as (_ & Hh & _).
    apply (Hh (mkError "invalid EIP-1193 provider" (CodeStr "INVALID_ARGUMENT"))).
    reflexivity.
Defined.

Lemma fetchBalances_returns w v s h :
  outcome (run w (fetchBalances v) s h) = Returned tt.
Proof.
  destruct v as [r | r]; cbn [fetchBalances].
  - destruct (fetchBalances_run_sdk w r s h) as (t & _ & Ho & _). exact Ho.
  - destruct (fetchBalances_run_modal w r s h) as (t & _ & Ho & _). exact Ho.
Qed.

(** C10. [fetchBalances] (both versions) returns normally whatever the
    libraries answer, from any cells and after any history; and in every
    execution of [handleTransfer] in which the transfer and its confirmation
    succeed but a call of the following refresh is rejected, the recipient
    and amount cells end empty, the error cell ends as the refresh message
    and [loading] ends false.  A form that passes the guards and whose own
    steps are not rejected does reach the confirmed transfer and enters the
    refresh once. *)
Theorem refresh_failure_does_not_abort_transfer :
  forall (w : World) (v : AppRender),
    (forall s h, outcome (run w (fetchBalances v) s h) = Returned tt) /\
    (let f := dispatch w handleTransfer v in
     transfer_confirmed (trace f) = true ->
     refresh_failed (trace f) = true ->
     recipient (final f) = "" /\
     amount (final f) = "" /\
     error (final f) = "Failed to fetch balances" /\
     loading (final f) = false) /\
    (let f := dispatch w handleTransfer v in
     validates v = true -> handler_failure (trace f) = None ->
     transfer_confirmed (trace f) = true /\
     invocations FnFetchBalances (trace f) = 1).
Proof.
  intros w v. split; [| split].
  - intros s h. apply fetchBalances_returns.
  - intros f H R.
    destruct (handleTransfer_run w v) as (_ & Hok & _).
    destruct (Hok H) as (Hr & Ha & Hl & _ & He).
    fold f in He. rewrite R in He.
    repeat split; assumption.
  - intros f V H.
    destruct (handleTransfer_reach w v) as (Hreach & _).
    destruct (Hreach V H) as (Hc & _).
    destruct (handleTransfer_run w v) as (_ & Hok & _).
    destruct (Hok Hc) as (_ & _ & _ & Hi & _).
    split; assumption.
Qed.

Lemma refresh_failure_does_not_abort_transfer_witness :
  (validates sdkFilled = true /\
   handler_failure (trace (dispatch tokenReadDown handleTransfer sdkFilled)) = None /\
   refresh_failed (trace (dispatch tokenReadDown handleTransfer sdkFilled)) = true /\
   recipient (final (dispatch tokenReadDown handleTransfer sdkFilled)) = "" /\
   amount (final (dispatch tokenReadDown handleTransfer sdkFilled)) = "" /\
   error (final (dispatch tokenReadDown handleTransfer sdkFilled))
     = "Failed to fetch balances" /\
   loading (final (dispatch tokenReadDown handleTransfer sdkFilled)) = false) /\
  (validates modalFilled = true /\
   handler_failure (trace (dispatch tokenReadDown handleTransfer modalFilled)) = None /\
   refresh_failed (trace (dispatch tokenReadDown handleTransfer modalFilled)) = true /\
   recipient (final (dispatch tokenReadDown handleTransfer modalFilled)) = "" /\
   amount (final (dispatch tokenReadDown handleTransfer modalFilled)) = "" /\
   error (final (dispatch tokenReadDown handleTransfer modalFilled))
     = "Failed to fetch balances" /\
   loading (final (dispatch tokenReadDown handleTransfer modalFilled)) = false).
Proof.
  split.
  - split; [reflexivity |]. split; [reflexivity |]. split; [reflexivity |].
    destruct (refresh_failure_does_not_abort_transfer tokenReadDown sdkFilled)
      as (_ & Hfail & Hreach).
    cbv zeta in Hfail, Hreach.
    apply Hfail; [apply Hreach; reflexivity | reflexivity].
  - split; [reflexivity |]. split; [reflexivity |]. split; [reflexivity |].
    destruct (refresh_failure_does_not_abort_transfer tokenReadDown modalFilled)
      as (_ & Hfail & Hreach).
    cbv zeta in Hfail, Hreach.
    apply Hfail; [apply Hreach; reflexivity | reflexivity].
Defined.

(** ** Failure of the balance fetch *)




(** ** The chain switch *)






(** ** The provider guard of the transfer submission *)

(** The Web3Modal version has the guard: without a wallet provider, and with
    both fields filled, [handleTransfer] sets the connect-wallet message and
    makes no library call. *)
Lemma handleTransfer_without_provider_modal w r :
  recipient (ModalApp.cells r) <> "" ->
  amount (ModalApp.cells r) <> "" ->
  ModalApp.walletProvider (ModalApp.hooks r) = None ->
  run w (ModalApp.handleTransfer r) (ModalApp.cells r) [] =
  mkFinal (Returned tt)
    (apply_update (SetError "Please connect your wallet") (ModalApp.cells r))
    [EvEnter FnHandleTransfer; EvSet (SetError "Please connect your wallet")].
Proof.
  intros Hr Ha Hp. unfold ModalApp.handleTransfer.
  destruct (String.eqb_spec (recipient (ModalApp.cells r)) ""); [contradiction |].
  destruct (String.eqb_spec (amount (ModalApp.cells r)) ""); [contradiction |].
  rewrite Hp. reflexivity.
Qed.

(** C6, at the failing input.  The SDK version has no such guard: with the
    provider handle undefined and both fields filled it sets [loading],
    clears the error and calls the [BrowserProvider] constructor on the
    undefined handle, whatever the libraries answer; when ethers rejects the
    handle, its message (not a validation message) ends in the error cell;
    when the constructor goes through, the signer is requested.  On the same
    form the Web3Modal version sets its connect-wallet message and makes no
    library call. *)
Theorem handleTransfer_without_provider_sdk :
  (forall w : World, exists res rest,
      trace (dispatch w handleTransfer sdkUnprovided) =
      EvEnter FnHandleTransfer :: EvSet (SetLoading true) :: EvSet (SetError "")
        :: EvCall (NewBrowserProvider None) res :: rest) /\
  error (final (dispatch ethersChecksProvider handleTransfer sdkUnprovided)) =
    "invalid EIP-1193 provider" /\
  In (EvCall (GetSigner 1) (Resolved 2))
     (trace (dispatch allGood handleTransfer sdkUnprovided)) /\
  error (final (dispatch allGood handleTransfer modalUnprovided)) =
    "Please connect your wallet" /\
  calls (trace (dispatch allGood handleTransfer modalUnprovided)) = [].
Proof.
  split; [| split; [reflexivity | split; [| split; reflexivity]]].
  - intros w. unfold dispatch. simpl.
    match goal with
    | |- context [run w ?p ?s ?h] => destruct (run_extends w p s h) as [t Ht]
    end.
    rewrite Ht. simpl. eexists. eexists. reflexivity.
  - vm_compute. tauto.
Qed.

(** ** The error cell *)





(** ** The balance cards *)

Lemma withEthers_formats : formats_as_ethers withEthers.
Proof. intros h value decimals. split; reflexivity. Qed.

Lemma balance_display_sdk w r :
  formats_as_ethers w ->
  let f := run w (SdkApp.fetchBalances r) (SdkApp.cells r) [] in
  (native_read (trace f) = Some (10 ^ 18)%Z ->
   bnbDisplayed (final f) = Resolved "1.0000") /\
  (token_read (trace f) = Some (10 ^ 6)%Z /\ decimals_read (trace f) = Some 6%N ->
   usdtDisplayed (final f) = Resolved "1.00").
Proof.
  intros Hfmt. cbv zeta. unfold SdkApp.fetchBalances.
  destruct (falsy (SdkApp.account (SdkApp.hooks r))
            || absent (SdkApp.provider (SdkApp.hooks r))).
  - simpl. split; intros H; simpl in H; try discriminate H.
    destruct H as [H _]. discriminate H.
  - exec_ethers w Hfmt; close_display.
Qed.

Lemma balance_display_modal w r :
  formats_as_ethers w ->
  let f := run w (ModalApp.fetchBalances r) (ModalApp.cells r) [] in
  (native_read (trace f) = Some (10 ^ 18)%Z ->
   bnbDisplayed (final f) = Resolved "1.0000") /\
  (token_read (trace f) = Some (10 ^ 6)%Z /\ decimals_read (trace f) = Some 6%N ->
   usdtDisplayed (final f) = Resolved "1.00").
Proof.
  intros Hfmt. cbv zeta. unfold ModalApp.fetchBalances.
  destruct (negb (ModalApp.isConnected (ModalApp.hooks r))
            || absent (ModalApp.walletProvider (ModalApp.hooks r))
            || falsy (ModalApp.address (ModalApp.hooks r))).
  - simpl. split; intros H; simpl in H; try discriminate H.
    destruct H as [H _]. discriminate H.
  - exec_ethers w Hfmt; close_display.
Qed.

Lemma formatEther_unit : formatEther (10 ^ 18) = Resolved "1.0".
Proof. vm_compute. reflexivity. Qed.

Lemma formatUnits_unit : formatUnits (10 ^ 6) 6 = Resolved "1.0".
Proof. vm_compute. reflexivity. Qed.

Lemma balance_answers_sdk w r :
  formats_as_ethers w ->
  session_ready (Sdk r) = true ->
  chain_answers w (10 ^ 18) 6 (10 ^ 6) ->
  final (run w (SdkApp.fetchBalances r) (SdkApp.cells r) []) =
  apply_update (SetUsdtBalance "1.0")
    (apply_update (SetBnbBalance "1.0") (SdkApp.cells r)).
Proof.
  intros Hfmt G (Hbp & Hnc & Hgb & Hd & Hbo).
  unfold session_ready in G. apply negb_true_iff in G.
  unfold SdkApp.fetchBalances. rewrite G.
  exec_answers w Hfmt Hbp Hnc Hgb Hd Hbo formatEther_unit formatUnits_unit.
  reflexivity.
Qed.

Lemma balance_answers_modal w r :
  formats_as_ethers w ->
  session_ready (Modal r) = true ->
  chain_answers w (10 ^ 18) 6 (10 ^ 6) ->
  final (run w (ModalApp.fetchBalances r) (ModalApp.cells r) []) =
  apply_update (SetUsdtBalance "1.0")
    (apply_update (SetBnbBalance "1.0") (ModalApp.cells r)).
Proof.
  intros Hfmt G (Hbp & Hnc & Hgb & Hd & Hbo).
  unfold session_ready in G. apply negb_true_iff in G.
  unfold ModalApp.fetchBalances. rewrite G.
  exec_answers w Hfmt Hbp Hnc Hgb Hd Hbo formatEther_unit formatUnits_unit.
  reflexivity.
Qed.

Lemma withEthers_answers : chain_answers withEthers (10 ^ 18) 6 (10 ^ 6).
Proof.
  repeat split; intros; try reflexivity; eexists; reflexivity.
Qed.

(** C9. With the [formatEther] and [formatUnits] of ethers: after a balance
    fetch (either version) whose native read returned exactly 10^18 base
    units, the native card shows 1.0000 ([parseFloat] then [toFixed(4)] of
    the 18-decimal string); after one whose token read returned exactly 10^6
    base units with on-chain decimals 6, the token card shows 1.00
    ([toFixed(2)] of the string scaled by the decimals).  So it is whenever
    the session has its account and provider and the chain answers 10^18,
    6 and 10^6: the two cells then hold the string 1.0. *)
Theorem balance_display :
  forall (w : World) (v : AppRender),
    formats_as_ethers w ->
    let f := dispatch w fetchBalances v in
    (native_read (trace f) = Some (10 ^ 18)%Z ->
     bnbDisplayed (final f) = Resolved "1.0000") /\
    (token_read (trace f) = Some (10 ^ 6)%Z /\ decimals_read (trace f) = Some 6%N ->
     usdtDisplayed (final f) = Resolved "1.00") /\
    (session_ready v = true -> chain_answers w (10 ^ 18) 6 (10 ^ 6) ->
     bnbBalance (final f) = "1.0" /\
     usdtBalance (final f) = "1.0" /\
     bnbDisplayed (final f) = Resolved "1.0000" /\
     usdtDisplayed (final f) = Resolved "1.00").
Proof.
  intros w [r | r] Hfmt; unfold dispatch; cbn [fetchBalances cells].
  - destruct (balance_display_sdk w r Hfmt) as [Hb Hu].
    split; [exact Hb | split; [exact Hu |]].
    intros G A. rewrite (balance_answers_sdk w r Hfmt G A).
    repeat split; reflexivity.
  - destruct (balance_display_modal w r Hfmt) as [Hb Hu].
    split; [exact Hb | split; [exact Hu |]].
    intros G A. rewrite (balance_answers_modal w r Hfmt G A).
    repeat split; reflexivity.
Qed.

Lemma balance_display_witness :
  (session_ready sdkFresh = true /\
   native_read (trace (dispatch withEthers fetchBalances sdkFresh)) = Some (10 ^ 18)%Z /\
   token_read (trace (dispatch withEthers fetchBalances sdkFresh)) = Some (10 ^ 6)%Z /\
   decimals_read (trace (dispatch withEthers fetchBalances sdkFresh)) = Some 6%N /\
   bnbBalance (final (dispatch withEthers fetchBalances sdkFresh)) = "1.0" /\
   usdtBalance (final (dispatch withEthers fetchBalances sdkFresh)) = "1.0" /\
   bnbDisplayed (final (dispatch withEthers fetchBalances sdkFresh))
     = Resolved "1.0000" /\
   usdtDisplayed (final (dispatch withEthers fetchBalances sdkFresh))
     = Resolved "1.00") /\
  (session_ready modalFresh = true /\
   native_read (trace (dispatch withEthers fetchBalances modalFresh)) = Some (10 ^ 18)%Z /\
   token_read (trace (dispatch withEthers fetchBalances modalFresh)) = Some (10 ^ 6)%Z /\
   decimals_read (trace (dispatch withEthers fetchBalances modalFresh)) = Some 6%N /\
   bnbBalance (final (dispatch withEthers fetchBalances modalFresh)) = "1.0" /\
   usdtBalance (final (dispatch withEthers fetchBalances modalFresh)) = "1.0" /\
   bnbDisplayed (final (dispatch withEthers fetchBalances modalFresh))
     = Resolved "1.0000" /\
   usdtDisplayed (final (dispatch withEthers fetchBalances modalFresh))
     = Resolved "1.00").
Proof.
  split.
  - split; [reflexivity |]. split; [reflexivity |].
    split; [reflexivity |]. split; [reflexivity |].
    destruct (balance_display withEthers sdkFresh withEthers_formats)
      as (_ & _ & Hall).
    apply Hall; [reflexivity | exact withEthers_answers].
  - split; [reflexivity |]. split; [reflexivity |].
    split; [reflexivity |]. split; [reflexivity |].
    destruct (balance_display withEthers modalFresh withEthers_formats)
      as (_ & _ & Hall).
    apply Hall; [reflexivity | exact withEthers_answers].
Defined.

(** ** The loading flag *)

Section Scheduling.

Variable w : World.

(** Resuming a lone handler until it is over is executing it with [run]. *)
Lemma drive_run (p : Prog unit) :
  forall s h, exists n,
    drive n w (advance w p s h) =
    mkPaused (Settled (outcome (run w p s h)))
             (final (run w p s h)) (trace (run w p s h)).
Proof.
  induction p as [a | e | T c k IH | u k IH | g k IH | k IH]; intros s h; simpl.
  - exists 0. reflexivity.
  - exists 0. reflexivity.
  - destruct (is_async c).
    + destruct (IH (w T h c) s (h ++ [EvCall c (w T h c)])) as [n Hn].
      exists (S n). simpl. exact Hn.
    + apply IH.
  - apply IH.
  - apply IH.
  - destruct (IH s h) as [n Hn]. exists (S n). simpl. exact Hn.
Qed.

(** Programs write the cells and never read them. *)
Lemma run_store_irrelevant {A : Type} (p : Prog A) :
  forall s s' h,
    trace (run w p s h) = trace (run w p s' h) /\
    outcome (run w p s h) = outcome (run w p s' h).
Proof.
  induction p as [a | e | T c k IH | u k IH | g k IH | k IH]; intros s s' h; simpl;
    auto.
Qed.

Lemma drive_settled n p : is_settled (task p) = true -> drive n w p = p.
Proof. intros H. destruct n; simpl; [reflexivity | rewrite H; reflexivity]. Qed.

Lemma drive_awaiting n T (c : Call T) k s h :
  drive (S n) w (mkPaused (Awaiting c k) s h) =
  drive n w (advance w (k (w T h c)) s (h ++ [EvCall c (w T h c)])).
Proof. reflexivity. Qed.

Lemma drive_resuming n k s h :
  drive (S n) w (mkPaused (Resuming k) s h) = drive n w (advance w k s h).
Proof. reflexivity. Qed.

Lemma no_loading_update u s :
  (match u with SetLoading _ => False | _ => True end) ->
  loading (apply_update u s) = loading s.
Proof. destruct u; simpl; intros H; try reflexivity; contradiction. Qed.

(** [try { q } finally { setLoading(false) }] with [q] free of [setLoading]:
    at every await the flag is what it was, and it is false at the end. *)
Lemma finally_resets_loading (q : Prog unit) :
  no_loading q ->
  forall n s h,
    flag_of (drive n w (advance w (try_finally q (set (SetLoading false))) s h))
            (loading s).
Proof.
  induction 1 as [a | e | T c k Hk IH | u k Hu Hk IH | f k Hk IH | k Hk IH];
    intros n s h; simpl.
  - rewrite drive_settled by reflexivity. reflexivity.
  - rewrite drive_settled by reflexivity. reflexivity.
  - destruct (is_async c).
    + destruct n as [| n]; [reflexivity |].
      rewrite drive_awaiting. apply IH.
    + apply IH.
  - unfold flag_of. rewrite <- (no_loading_update u s Hu). apply IH.
  - apply IH.
  - destruct n as [| n]; [reflexivity |].
    rewrite drive_resuming. apply IH.
Qed.

Lemma no_loading_try_catch {A : Type} (p : Prog A) hd :
  no_loading p -> (forall e, no_loading (hd e)) -> no_loading (try_catch p hd).
Proof.
  induction 1; intros Hf; simpl; try (constructor; auto); auto.
Qed.

(** The shape of both [handleTransfer]s past their guards. *)
Lemma loading_bracket (q : Prog unit) (hd : JsError -> Prog unit) :
  no_loading q -> (forall e, no_loading (hd e)) ->
  forall n s h,
    flag_of (drive n w
               (advance w
                  (try_finally
                     (try_catch (bind (set (SetLoading true)) (fun _ => q)) hd)
                     (set (SetLoading false))) s h))
            true.
Proof.
  intros Hq Hh n s h.
  exact (finally_resets_loading (try_catch q hd)
           (no_loading_try_catch q hd Hq Hh) n
           (apply_update (SetLoading true) s) (h ++ [EvSet (SetLoading true)])).
Qed.

Lemma flag_in_flight p :
  flag_of p true -> is_settled (task p) = false -> loading (store p) = true.
Proof. unfold flag_of. intros F H. rewrite H in F. exact F. Qed.

(** While [handleTransfer] is suspended at an await, [loading] is true. *)
Lemma loading_in_flight_sdk r n :
  is_settled (task (drive n w (advance w (SdkApp.handleTransfer r) (SdkApp.cells r) [])))
    = false ->
  loading (store (drive n w (advance w (SdkApp.handleTransfer r) (SdkApp.cells r) [])))
    = true.
Proof.
  unfold SdkApp.handleTransfer.
  destruct (String.eqb (recipient (SdkApp.cells r)) ""
            || String.eqb (amount (SdkApp.cells r)) "").
  - simpl. rewrite drive_settled by reflexivity. discriminate.
  - apply flag_in_flight.
    match goal with
    | |- context [try_finally
                    (try_catch (bind (set (SetLoading true)) (fun _ => ?X)) ?hd) _] =>
        apply (loading_bracket X hd)
    end.
    + no_loading_tac.
    + intros e. no_loading_tac.
Qed.

Lemma loading_in_flight_modal r n :
  is_settled (task (drive n w (advance w (ModalApp.handleTransfer r) (ModalApp.cells r) [])))
    = false ->
  loading (store (drive n w (advance w (ModalApp.handleTransfer r) (ModalApp.cells r) [])))
    = true.
Proof.
  unfold ModalApp.handleTransfer.
  destruct (String.eqb (recipient (ModalApp.cells r)) ""
            || String.eqb (amount (ModalApp.cells r)) "").
  - simpl. rewrite drive_settled by reflexivity. discriminate.
  - destruct (absent (ModalApp.walletProvider (ModalApp.hooks r))).
    + simpl. rewrite drive_settled by reflexivity. discriminate.
    + apply flag_in_flight.
      match goal with
      | |- context [try_finally
                      (try_catch (bind (set (SetLoading true)) (fun _ => ?X)) ?hd) _] =>
          apply (loading_bracket X hd)
      end.
      * no_loading_tac.
      * intros e. no_loading_tac.
Qed.

End Scheduling.

Lemma clickTransfer_disabled w v :
  loading (cells v) = true ->
  dispatch w clickTransfer v = mkFinal (Returned tt) (cells v) [].
Proof.
  intros H. destruct v as [r | r]; unfold dispatch; cbn [clickTransfer cells] in *.
  - unfold SdkApp.clickTransfer, SdkApp.transferDisabled. rewrite H. reflexivity.
  - unfold ModalApp.clickTransfer, ModalApp.transferDisabled. rewrite H. reflexivity.
Qed.

Lemma clickTransfer_enabled v :
  loading (cells v) = false -> clickTransfer v = handleTransfer v.
Proof.
  intros H. destruct v as [r | r]; cbn [clickTransfer cells handleTransfer] in *.
  - unfold SdkApp.clickTransfer, SdkApp.transferDisabled. rewrite H. reflexivity.
  - unfold ModalApp.clickTransfer, ModalApp.transferDisabled. rewrite H. reflexivity.
Qed.

Lemma clickTransfer_while_loading v :
  loading (cells v) = true -> clickTransfer v = Ret tt.
Proof.
  intros H. destruct v as [r | r]; cbn [clickTransfer cells] in *.
  - unfold SdkApp.clickTransfer, SdkApp.transferDisabled. rewrite H. reflexivity.
  - unfold ModalApp.clickTransfer, ModalApp.transferDisabled. rewrite H. reflexivity.
Qed.

Lemma cells_rerender s v : cells (rerender s v) = s.
Proof. destruct v; reflexivity. Qed.

(** While a click's handler is suspended at an await, [loading] is true. *)
Lemma loading_in_flight w v n :
  is_settled (task (drive n w (firstClick w v))) = false ->
  loading (store (drive n w (firstClick w v))) = true.
Proof.
  unfold firstClick. destruct (loading (cells v)) eqn:L.
  - rewrite (clickTransfer_while_loading v L). simpl.
    rewrite drive_settled by reflexivity. discriminate.
  - rewrite (clickTransfer_enabled v L).
    destruct v as [r | r]; cbn [handleTransfer cells].
    + apply loading_in_flight_sdk.
    + apply loading_in_flight_modal.
Qed.

(** C8. While [loading] is true no second submission begins.  The submit
    button of a render whose [loading] is true is disabled: a click on it
    dispatches nothing, no call is made and no cell changes.  From the click
    that starts a transfer until its handler is over, at every await,
    [loading] is true; a second click on the re-rendered button at any such
    moment is over at once, adds no event and touches no cell.  So the
    signer and the contract see the first click only: at most one
    [transfer] call, and exactly one when the form passes the guards and no
    step of the handler is rejected. *)
Theorem loading_blocks_second_submission :
  forall (w : World) (v : AppRender),
    (loading (cells v) = true ->
     trace (dispatch w clickTransfer v) = [] /\
     final (dispatch w clickTransfer v) = cells v) /\
    (forall n : nat,
       is_settled (task (drive n w (firstClick w v))) = false ->
       loading (store (drive n w (firstClick w v))) = true /\
       forall w' : World,
         advance w' (clickTransfer (rerender (store (drive n w (firstClick w v))) v))
                 (store (drive n w (firstClick w v)))
                 (log (drive n w (firstClick w v)))
         = mkPaused (Settled (Returned tt))
                    (store (drive n w (firstClick w v)))
                    (log (drive n w (firstClick w v)))) /\
    (exists n : nat,
       drive n w (firstClick w v) =
       mkPaused (Settled (outcome (dispatch w clickTransfer v)))
                (final (dispatch w clickTransfer v))
                (trace (dispatch w clickTransfer v))) /\
    submissions (trace (dispatch w clickTransfer v)) <= 1 /\
    (loading (cells v) = false -> validates v = true ->
     handler_failure (trace (dispatch w clickTransfer v)) = None ->
     submissions (trace (dispatch w clickTransfer v)) = 1).
Proof.
  intros w v. split; [| split; [| split; [| split]]].
  - intros H. rewrite (clickTransfer_disabled w v H). split; reflexivity.
  - intros n H.
    pose proof (loading_in_flight w v n H) as L. split; [exact L |].
    intros w'.
    rewrite (clickTransfer_while_loading
               (rerender (store (drive n w (firstClick w v))) v)).
    + reflexivity.
    + rewrite cells_rerender. exact L.
  - apply drive_run.
  - destruct (loading (cells v)) eqn:L.
    + rewrite (clickTransfer_disabled w v L). unfold submissions. simpl. lia.
    + unfold dispatch. rewrite (clickTransfer_enabled v L).
      destruct (handleTransfer_reach w v) as (_ & _ & Hle). exact Hle.
  - intros L V H. unfold dispatch in *. rewrite (clickTransfer_enabled v L) in *.
    destruct (handleTransfer_reach w v) as (Hreach & _).
    destruct (Hreach V H) as (_ & Hone). exact Hone.
Qed.

Lemma loading_blocks_second_submission_witness :
  (loading (cells sdkBusy) = true /\
   trace (dispatch allGood clickTransfer sdkBusy) = [] /\
   final (dispatch allGood clickTransfer sdkBusy) = cells sdkBusy) /\
  (is_settled (task (firstClick allGood sdkFilled)) = false /\
   loading (store (firstClick allGood sdkFilled)) = true /\
   is_settled (task (secondClick allGood sdkFilled)) = true /\
   log (secondClick allGood sdkFilled) = log (firstClick allGood sdkFilled) /\
   is_settled (first (doubleClick allGood sdkFilled)) = true /\
   submissions (events (doubleClick allGood sdkFilled)) = 1 /\
   submissions (trace (dispatch allGood clickTransfer sdkFilled)) = 1) /\
  (is_settled (task (firstClick allGood modalFilled)) = false /\
   loading (store (firstClick allGood modalFilled)) = true /\
   is_settled (task (secondClick allGood modalFilled)) = true /\
   log (secondClick allGood modalFilled) = log (firstClick allGood modalFilled) /\
   is_settled (first (doubleClick allGood modalFilled)) = true /\
   submissions (events (doubleClick allGood modalFilled)) = 1 /\
   submissions (trace (dispatch allGood clickTransfer modalFilled)) = 1).
Proof.
  split; [| split].
  - split; [reflexivity |].
    destruct (loading_blocks_second_submission allGood sdkBusy) as (Hd & _).
    exact (Hd eq_refl).
  - destruct (loading_blocks_second_submission allGood sdkFilled)
      as (_ & Hflight & _ & _ & Hone).
    destruct (Hflight 0 eq_refl) as (Hl & Hsecond).
    split; [reflexivity |]. split; [exact Hl |].
    split; [reflexivity |]. split; [reflexivity |].
    split; [reflexivity |]. split; [reflexivity |].
    apply Hone; reflexivity.
  - destruct (loading_blocks_second_submission allGood modalFilled)
      as (_ & Hflight & _ & _ & Hone).
    destruct (Hflight 0 eq_refl) as (Hl & Hsecond).
    split; [reflexivity |]. split; [exact Hl |].
    split; [reflexivity |]. split; [reflexivity |].
    split; [reflexivity |]. split; [reflexivity |].
    apply Hone; reflexivity.
Defined.

(** * Further properties of the handlers *)

(** ** The balance fetch *)

Lemma fetchBalances_not_ready_sdk w r s h :
  session_ready (Sdk r) = false ->
  run w (SdkApp.fetchBalances r) s h = mkFinal (Returned tt) s (h ++ [EvEnter FnFetchBalances]).
Proof.
  unfold session_ready, SdkApp.fetchBalances. intros H.
  apply negb_false_iff in H. simpl. rewrite H. reflexivity.
Qed.

Lemma fetchBalances_not_ready_modal w r s h :
  session_ready (Modal r) = false ->
  run w (ModalApp.fetchBalances r) s h = mkFinal (Returned tt) s (h ++ [EvEnter FnFetchBalances]).
Proof.
  unfold session_ready, ModalApp.fetchBalances. intros H.
  apply negb_false_iff in H. simpl. rewrite H. reflexivity.
Qed.

Lemma fetch_kinds_sdk w r :
  fetch_kinds_post (Sdk r) (run w (SdkApp.fetchBalances r) (SdkApp.cells r) []).
Proof.
  unfold fetch_kinds_post, session_ready, SdkApp.fetchBalances. cbn [sessionAccount].
  destruct (falsy (SdkApp.account (SdkApp.hooks r))
            || absent (SdkApp.provider (SdkApp.hooks r))).
  - close_kinds Ha.
  - exec w; close_kinds Ha.
Qed.

Lemma fetch_kinds_modal w r :
  fetch_kinds_post (Modal r) (run w (ModalApp.fetchBalances r) (ModalApp.cells r) []).
Proof.
  unfold fetch_kinds_post, session_ready, ModalApp.fetchBalances. cbn [sessionAccount].
  destruct (negb (ModalApp.isConnected (ModalApp.hooks r))
            || absent (ModalApp.walletProvider (ModalApp.hooks r))
            || falsy (ModalApp.address (ModalApp.hooks r))).
  - close_kinds Ha.
  - exec w; close_kinds Ha.
Qed.

Lemma transfer_kinds_sdk w r :
  transfer_kinds_post (Sdk r) (run w (SdkApp.handleTransfer r) (SdkApp.cells r) []).
Proof.
  unfold transfer_kinds_post, validates, SdkApp.handleTransfer, SdkApp.fetchBalances.
  cbn [sessionAccount].
  destruct (String.eqb (recipient (SdkApp.cells r)) ""
            || String.eqb (amount (SdkApp.cells r)) "").
  - close_kinds Ha.
  - destruct (falsy (SdkApp.account (SdkApp.hooks r))
              || absent (SdkApp.provider (SdkApp.hooks r)));
      exec w; close_kinds Ha.
Qed.

Lemma transfer_kinds_modal w r :
  transfer_kinds_post (Modal r) (run w (ModalApp.handleTransfer r) (ModalApp.cells r) []).
Proof.
  unfold transfer_kinds_post, validates, ModalApp.handleTransfer, ModalApp.fetchBalances.
  cbn [sessionAccount].
  destruct (String.eqb (recipient (ModalApp.cells r)) ""
            || String.eqb (amount (ModalApp.cells r)) "").
  - close_kinds Ha.
  - destruct (absent (ModalApp.walletProvider (ModalApp.hooks r))).
    + close_kinds Ha.
    + destruct (negb (ModalApp.isConnected (ModalApp.hooks r))
                || false
                || falsy (ModalApp.address (ModalApp.hooks r)));
        exec w; close_kinds Ha.
Qed.

Lemma submission_sdk w r :
  submission_post (Sdk r) (run w (SdkApp.handleTransfer r) (SdkApp.cells r) []).
Proof.
  unfold submission_post, SdkApp.handleTransfer, SdkApp.fetchBalances.
  cbn [providerHandle cells].
  destruct (String.eqb (recipient (SdkApp.cells r)) ""
            || String.eqb (amount (SdkApp.cells r)) "").
  - simpl. discriminate.
  - destruct (falsy (SdkApp.account (SdkApp.hooks r))
              || absent (SdkApp.provider (SdkApp.hooks r)));
      exec w; close_submission.
Qed.

Lemma submission_modal w r :
  submission_post (Modal r) (run w (ModalApp.handleTransfer r) (ModalApp.cells r) []).
Proof.
  unfold submission_post, ModalApp.handleTransfer, ModalApp.fetchBalances.
  cbn [providerHandle cells].
  destruct (String.eqb (recipient (ModalApp.cells r)) ""
            || String.eqb (amount (ModalApp.cells r)) "").
  - simpl. discriminate.
  - destruct (absent (ModalApp.walletProvider (ModalApp.hooks r))).
    + simpl. discriminate.
    + destruct (negb (ModalApp.isConnected (ModalApp.hooks r))
                || false
                || falsy (ModalApp.address (ModalApp.hooks r)));
        exec w; close_submission.
Qed.

Lemma frame_sdk w r :
  frame_post (Sdk r) (run w (SdkApp.handleTransfer r) (SdkApp.cells r) []).
Proof.
  unfold frame_post, SdkApp.handleTransfer, SdkApp.fetchBalances, validates.
  cbn [cells].
  destruct (String.eqb (recipient (SdkApp.cells r)) ""
            || String.eqb (amount (SdkApp.cells r)) "").
  - close_frame.
  - destruct (falsy (SdkApp.account (SdkApp.hooks r))
              || absent (SdkApp.provider (SdkApp.hooks r)));
      exec w; close_frame.
Qed.

Lemma frame_modal w r :
  frame_post (Modal r) (run w (ModalApp.handleTransfer r) (ModalApp.cells r) []).
Proof.
  unfold frame_post, ModalApp.handleTransfer, ModalApp.fetchBalances, validates.
  cbn [cells].
  destruct (String.eqb (recipient (ModalApp.cells r)) ""
            || String.eqb (amount (ModalApp.cells r)) "").
  - close_frame.
  - destruct (absent (ModalApp.walletProvider (ModalApp.hooks r))).
    + close_frame.
    + destruct (negb (ModalApp.isConnected (ModalApp.hooks r))
                || false
                || falsy (ModalApp.address (ModalApp.hooks r)));
        exec w; close_frame.
Qed.

Lemma connect_frame_sdk w r :
  connect_frame_post r (run w (SdkApp.connect r) (SdkApp.cells r) []).
Proof.
  unfold connect_frame_post, SdkApp.connect, SdkApp.switchToBNBChain.
  destruct (SdkApp.sdk (SdkApp.hooks r)), (SdkApp.provider (SdkApp.hooks r));
    exec_all w; close_more.
Qed.

Lemma switch_more_sdk w r :
  switch_more_post (Sdk r) (run w (SdkApp.switchToBNBChain r) (SdkApp.cells r) []).
Proof.
  unfold switch_more_post, SdkApp.switchToBNBChain. cbn [cells providerHandle].
  destruct (SdkApp.provider (SdkApp.hooks r)); exec_all w; close_more.
Qed.

Lemma switch_more_modal w r :
  switch_more_post (Modal r) (run w (ModalApp.switchToBNBChain r) (ModalApp.cells r) []).
Proof.
  unfold switch_more_post, ModalApp.switchToBNBChain. cbn [cells providerHandle].
  destruct (ModalApp.walletProvider (ModalApp.hooks r)); exec_all w; close_more.
Qed.

Lemma fetchBalances_success_sdk w r :
  session_ready (Sdk r) = true ->
  existsb is_rejected (trace (run w (SdkApp.fetchBalances r) (SdkApp.cells r) [])) = false ->
  exists account bp b sb c d t st,
    SdkApp.account (SdkApp.hooks r) = Some account /\
    calls (trace (run w (SdkApp.fetchBalances r) (SdkApp.cells r) [])) =
      [EvCall (NewBrowserProvider (SdkApp.provider (SdkApp.hooks r))) (Resolved bp);
       EvCall (GetBalance bp account) (Resolved b);
       EvCall (FormatEther b) (Resolved sb);
       EvCall (NewContract USDT_ADDRESS USDT_ABI bp) (Resolved c);
       EvCall (Decimals c) (Resolved d);
       EvCall (BalanceOf c account) (Resolved t);
       EvCall (FormatUnits t d) (Resolved st)] /\
    final (run w (SdkApp.fetchBalances r) (SdkApp.cells r) []) =
      apply_update (SetUsdtBalance st) (apply_update (SetBnbBalance sb) (SdkApp.cells r)).
Proof.
  unfold session_ready, SdkApp.fetchBalances. intros G.
  apply negb_true_iff in G. rewrite G.
  destruct (SdkApp.account (SdkApp.hooks r)) as [a |]; [| discriminate G].
  exec w; intros H; try discriminate H.
  repeat eexists.
Qed.

Lemma fetchBalances_success_modal w r :
  session_ready (Modal r) = true ->
  existsb is_rejected (trace (run w (ModalApp.fetchBalances r) (ModalApp.cells r) [])) = false ->
  exists account bp b sb c d t st,
    ModalApp.address (ModalApp.hooks r) = Some account /\
    calls (trace (run w (ModalApp.fetchBalances r) (ModalApp.cells r) [])) =
      [EvCall (NewBrowserProvider (ModalApp.walletProvider (ModalApp.hooks r))) (Resolved bp);
       EvCall (GetBalance bp account) (Resolved b);
       EvCall (FormatEther b) (Resolved sb);
       EvCall (NewContract USDT_ADDRESS USDT_ABI bp) (Resolved c);
       EvCall (Decimals c) (Resolved d);
       EvCall (BalanceOf c account) (Resolved t);
       EvCall (FormatUnits t d) (Resolved st)] /\
    final (run w (ModalApp.fetchBalances r) (ModalApp.cells r) []) =
      apply_update (SetUsdtBalance st) (apply_update (SetBnbBalance sb) (ModalApp.cells r)).
Proof.
  unfold session_ready, ModalApp.fetchBalances. intros G.
  apply negb_true_iff in G. rewrite G.
  destruct (ModalApp.address (ModalApp.hooks r)) as [a |];
    [| rewrite orb_true_r in G; discriminate G].
  exec w; intros H; try discriminate H.
  repeat eexists.
Qed.

(** X1. [fetchBalances] calls into the libraries exactly when the session
    has its account and its provider handle (and, in the Web3Modal version,
    is connected); otherwise it returns at once and every cell keeps its
    value, the error cell included. *)
Theorem fetchBalances_runs_when_session_ready :
  forall (w : World) (v : AppRender),
    existsb is_call (trace (dispatch w fetchBalances v)) = session_ready v /\
    (session_ready v = false ->
     outcome (dispatch w fetchBalances v) = Returned tt /\
     final (dispatch w fetchBalances v) = cells v).
Proof.
  intros w v. split.
  - destruct v as [r | r]; unfold dispatch; cbn [fetchBalances cells].
    + apply fetch_kinds_sdk.
    + apply fetch_kinds_modal.
  - intros H. destruct v as [r | r]; unfold dispatch; cbn [fetchBalances cells].
    + rewrite (fetchBalances_not_ready_sdk w r _ _ H). split; reflexivity.
    + rewrite (fetchBalances_not_ready_modal w r _ _ H). split; reflexivity.
Qed.

Lemma fetchBalances_runs_when_session_ready_witness :
  (session_ready sdkNoAccount = false /\
   final (dispatch allGood fetchBalances sdkNoAccount) = cells sdkNoAccount) /\
  (session_ready modalUnprovided = false /\
   final (dispatch allGood fetchBalances modalUnprovided) = cells modalUnprovided).
Proof.
  split.
  - split; [reflexivity |].
    destruct (fetchBalances_runs_when_session_ready allGood sdkNoAccount) as (_ & H).
    apply H. reflexivity.
  - split; [reflexivity |].
    destruct (fetchBalances_runs_when_session_ready allGood modalUnprovided) as (_ & H).
    apply H. reflexivity.
Defined.

(** X2. When the session is ready and no call is rejected, [fetchBalances]
    makes exactly seven library calls, in this order: the provider over the
    session's handle, the native balance of the session's account, its
    formatting, the USDT contract over that provider, its decimals, the
    token balance of the same account, its formatting with those decimals.
    The two balance cells end as the two formatted strings and no other
    cell changes. *)
Theorem fetchBalances_success :
  forall (w : World) (v : AppRender),
    session_ready v = true ->
    existsb is_rejected (trace (dispatch w fetchBalances v)) = false ->
    exists account bp b sb c d t st,
      sessionAccount v = Some account /\
      calls (trace (dispatch w fetchBalances v)) =
        [EvCall (NewBrowserProvider (providerHandle v)) (Resolved bp);
         EvCall (GetBalance bp account) (Resolved b);
         EvCall (FormatEther b) (Resolved sb);
         EvCall (NewContract USDT_ADDRESS USDT_ABI bp) (Resolved c);
         EvCall (Decimals c) (Resolved d);
         EvCall (BalanceOf c account) (Resolved t);
         EvCall (FormatUnits t d) (Resolved st)] /\
      final (dispatch w fetchBalances v) =
        apply_update (SetUsdtBalance st) (apply_update (SetBnbBalance sb) (cells v)).
Proof.
  intros w [r | r] G H; unfold dispatch in *;
    cbn [fetchBalances cells sessionAccount providerHandle] in *.
  - apply fetchBalances_success_sdk; assumption.
  - apply fetchBalances_success_modal; assumption.
Qed.

Lemma fetchBalances_success_witness :
  (final (dispatch allGood fetchBalances sdkFilled) =
     apply_update (SetUsdtBalance "1.0")
       (apply_update (SetBnbBalance "1.0") (cells sdkFilled)) /\
   List.length (calls (trace (dispatch allGood fetchBalances sdkFilled))) = 7) /\
  (final (dispatch allGood fetchBalances modalFilled) =
     apply_update (SetUsdtBalance "1.0")
       (apply_update (SetBnbBalance "1.0") (cells modalFilled)) /\
   List.length (calls (trace (dispatch allGood fetchBalances modalFilled))) = 7).
Proof.
  split.
  - destruct (fetchBalances_success allGood sdkFilled eq_refl eq_refl)
      as (account & bp & b & sb & c & d & t & st & _ & Hc & Hf).
    split; [reflexivity |]. rewrite Hc. reflexivity.
  - destruct (fetchBalances_success allGood modalFilled eq_refl eq_refl)
      as (account & bp & b & sb & c & d & t & st & _ & Hc & Hf).
    split; [reflexivity |]. rewrite Hc. reflexivity.
Defined.

(** X3. A balance fetch is read-only: it never requests the signer, parses
    an amount, calls [transfer] or waits for a transaction, and it makes no
    wallet request; every contract it constructs is the USDT contract with
    the three-function ABI, and every balance it reads is that of the
    session's account.  (It does call the chain whenever the session is
    ready.) *)
Theorem fetchBalances_is_read_only :
  forall (w : World) (v : AppRender),
    existsb is_call (trace (dispatch w fetchBalances v)) = session_ready v /\
    existsb is_signing (trace (dispatch w fetchBalances v)) = false /\
    existsb is_wallet_call (trace (dispatch w fetchBalances v)) = false /\
    Forall uses_usdt (trace (dispatch w fetchBalances v)) /\
    (forall a, sessionAccount v = Some a ->
       Forall (reads_account a) (trace (dispatch w fetchBalances v))).
Proof.
  intros w [r | r]; unfold dispatch; cbn [fetchBalances cells].
  - apply fetch_kinds_sdk.
  - apply fetch_kinds_modal.
Qed.

Lemma fetchBalances_is_read_only_witness :
  Forall (reads_account "0xA11CE") (trace (dispatch allGood fetchBalances sdkFilled)) /\
  Forall (reads_account "0xA11CE") (trace (dispatch allGood fetchBalances modalFilled)).
Proof.
  split.
  - destruct (fetchBalances_is_read_only allGood sdkFilled) as (_ & _ & _ & _ & H).
    apply H. reflexivity.
  - destruct (fetchBalances_is_read_only allGood modalFilled) as (_ & _ & _ & _ & H).
    apply H. reflexivity.
Defined.

(** ** The transfer submission, further *)

(** X4. [handleTransfer] calls into the libraries exactly when its guards
    pass.  It makes no wallet request (no chain switch, no connection);
    every contract it constructs is the USDT contract with the
    three-function ABI, and the balances read by its refresh are those of
    the session's account. *)
Theorem handleTransfer_calls :
  forall (w : World) (v : AppRender),
    existsb is_call (trace (dispatch w handleTransfer v)) = validates v /\
    existsb is_wallet_call (trace (dispatch w handleTransfer v)) = false /\
    Forall uses_usdt (trace (dispatch w handleTransfer v)) /\
    (forall a, sessionAccount v = Some a ->
       Forall (reads_account a) (trace (dispatch w handleTransfer v))).
Proof.
  intros w [r | r]; unfold dispatch; cbn [handleTransfer cells].
  - apply transfer_kinds_sdk.
  - apply transfer_kinds_modal.
Qed.

Lemma handleTransfer_calls_witness :
  Forall (reads_account "0xA11CE") (trace (dispatch allGood handleTransfer sdkFilled)) /\
  Forall (reads_account "0xA11CE") (trace (dispatch allGood handleTransfer modalFilled)).
Proof.
  split.
  - destruct (handleTransfer_calls allGood sdkFilled) as (_ & _ & _ & H).
    apply H. reflexivity.
  - destruct (handleTransfer_calls allGood modalFilled) as (_ & _ & _ & H).
    apply H. reflexivity.
Defined.

(** X5. Whenever [handleTransfer] makes a [transfer] call, that call is its
    sixth library call, on the USDT contract constructed over the signer of
    the session's provider, for the recipient of the form and for the amount
    that [parseUnits] returned for the amount of the form and the decimals
    read from that contract; no other [transfer] call follows.  When the
    guards pass and none of its own steps is rejected, the call is made. *)
Theorem handleTransfer_submission :
  forall (w : World) (v : AppRender),
    (existsb is_submission (trace (dispatch w handleTransfer v)) = true ->
     exists bp sg c d a r rest,
       calls (trace (dispatch w handleTransfer v)) =
         EvCall (NewBrowserProvider (providerHandle v)) (Resolved bp)
         :: EvCall (GetSigner bp) (Resolved sg)
         :: EvCall (NewContract USDT_ADDRESS USDT_ABI sg) (Resolved c)
         :: EvCall (Decimals c) (Resolved d)
         :: EvCall (ParseUnits (amount (cells v)) d) (Resolved a)
         :: EvCall (ContractTransfer c (recipient (cells v)) a) r
         :: rest /\
       submissions rest = 0) /\
    (validates v = true ->
     handler_failure (trace (dispatch w handleTransfer v)) = None ->
     submissions (trace (dispatch w handleTransfer v)) = 1).
Proof.
  intros w v. split.
  - destruct v as [r | r]; unfold dispatch; cbn [handleTransfer].
    + apply submission_sdk.
    + apply submission_modal.
  - intros V H. destruct (handleTransfer_reach w v) as (Hreach & _).
    destruct (Hreach V H) as (_ & Hone). exact Hone.
Qed.

Lemma handleTransfer_submission_witness :
  (submissions (trace (dispatch allGood handleTransfer sdkFilled)) = 1 /\
   exists c a r,
     nth_error (calls (trace (dispatch allGood handleTransfer sdkFilled))) 5 =
       Some (EvCall (ContractTransfer c "0xB0B" a) r)) /\
  (submissions (trace (dispatch allGood handleTransfer modalFilled)) = 1 /\
   exists c a r,
     nth_error (calls (trace (dispatch allGood handleTransfer modalFilled))) 5 =
       Some (EvCall (ContractTransfer c "0xB0B" a) r)).
Proof.
  split.
  - destruct (handleTransfer_submission allGood sdkFilled) as (Hseq & Hone).
    split; [apply Hone; reflexivity |].
    destruct (Hseq eq_refl) as (bp & sg & c & d & a & r & rest & Hc & _).
    exists c, a, r. rewrite Hc. reflexivity.
  - destruct (handleTransfer_submission allGood modalFilled) as (Hseq & Hone).
    split; [apply Hone; reflexivity |].
    destruct (Hseq eq_refl) as (bp & sg & c & d & a & r & rest & Hc & _).
    exists c, a, r. rewrite Hc. reflexivity.
Defined.

(** X6. [handleTransfer] never throws.  It leaves [loading] false whenever
    its guards passed, whatever happened after, and leaves [loading] as it
    was when a guard stopped it.  Unless the transfer is confirmed, the two
    stored balances keep their values and no balance refresh is started. *)
Theorem handleTransfer_frame :
  forall (w : World) (v : AppRender),
    outcome (dispatch w handleTransfer v) = Returned tt /\
    loading (final (dispatch w handleTransfer v)) =
      (if validates v then false else loading (cells v)) /\
    (transfer_confirmed (trace (dispatch w handleTransfer v)) = false ->
     bnbBalance (final (dispatch w handleTransfer v)) = bnbBalance (cells v) /\
     usdtBalance (final (dispatch w handleTransfer v)) = usdtBalance (cells v) /\
     invocations FnFetchBalances (trace (dispatch w handleTransfer v)) = 0).
Proof.
  intros w [r | r]; unfold dispatch; cbn [handleTransfer].
  - apply frame_sdk.
  - apply frame_modal.
Qed.

Lemma handleTransfer_frame_witness :
  (transfer_confirmed (trace (dispatch txReverts handleTransfer sdkBusy)) = false /\
   loading (cells sdkBusy) = true /\
   loading (final (dispatch txReverts handleTransfer sdkBusy)) = false /\
   bnbBalance (final (dispatch txReverts handleTransfer sdkBusy)) = "0" /\
   invocations FnFetchBalances (trace (dispatch txReverts handleTransfer sdkBusy)) = 0) /\
  (transfer_confirmed (trace (dispatch txReverts handleTransfer modalFilled)) = false /\
   loading (final (dispatch txReverts handleTransfer modalFilled)) = false /\
   bnbBalance (final (dispatch txReverts handleTransfer modalFilled)) = "0" /\
   invocations FnFetchBalances (trace (dispatch txReverts handleTransfer modalFilled)) = 0).
Proof.
  split.
  - destruct (handleTransfer_frame txReverts sdkBusy) as (_ & Hl & Hb).
    destruct (Hb eq_refl) as (Hn & _ & Hi).
    split; [reflexivity |]. split; [reflexivity |].
    split; [exact Hl |]. split; [exact Hn | exact Hi].
  - destruct (handleTransfer_frame txReverts modalFilled) as (_ & Hl & Hb).
    destruct (Hb eq_refl) as (Hn & _ & Hi).
    split; [reflexivity |].
    split; [exact Hl |]. split; [exact Hn | exact Hi].
Defined.

Lemma validates_rerender s v :
  recipient s = recipient (cells v) -> amount s = amount (cells v) ->
  validates (rerender s v) = validates v.
Proof.
  intros Hr Ha. destruct v as [r | r]; cbn [validates rerender cells] in *; simpl;
    rewrite Hr, Ha; reflexivity.
Qed.

(** X7. After a submission that passed the guards and none of whose own
    steps was rejected, the form is empty: [handleTransfer] of the
    re-rendered component is stopped by its first guard, makes no library
    call in any world and sets the validation message. *)
Theorem resubmit_after_success :
  forall (w w' : World) (v : AppRender),
    validates v = true ->
    handler_failure (trace (dispatch w handleTransfer v)) = None ->
    validates (rerender (final (dispatch w handleTransfer v)) v) = false /\
    calls (trace (dispatch w' handleTransfer
                    (rerender (final (dispatch w handleTransfer v)) v))) = [] /\
    error (final (dispatch w' handleTransfer
                    (rerender (final (dispatch w handleTransfer v)) v)))
      = "Please enter recipient address and amount".
Proof.
  intros w w' v V H.
  destruct (handleTransfer_reach w v) as (Hreach & _).
  destruct (Hreach V H) as (Hc & _).
  destruct (handleTransfer_run w v) as (_ & Hok & _).
  destruct (Hok Hc) as (Hr & _).
  revert Hr. generalize (final (dispatch w handleTransfer v)). intros s Hr.
  destruct v as [r | r]; cbn [rerender]; unfold dispatch;
    cbn [handleTransfer cells validates].
  - split; [simpl; rewrite Hr; reflexivity |].
    rewrite (handleTransfer_missing_input_sdk w'
               (SdkApp.mkRender (SdkApp.hooks r) s) (or_introl Hr)).
    split; reflexivity.
  - split; [simpl; rewrite Hr; reflexivity |].
    rewrite (handleTransfer_missing_input_modal w'
               (ModalApp.mkRender (ModalApp.hooks r) s) (or_introl Hr)).
    split; reflexivity.
Qed.

Lemma resubmit_after_success_witness :
  (calls (trace (dispatch allGood handleTransfer
                   (rerender (final (dispatch allGood handleTransfer sdkFilled)) sdkFilled)))
     = [] /\
   error (final (dispatch allGood handleTransfer
                   (rerender (final (dispatch allGood handleTransfer sdkFilled)) sdkFilled)))
     = "Please enter recipient address and amount") /\
  (calls (trace (dispatch allGood handleTransfer
                   (rerender (final (dispatch allGood handleTransfer modalFilled)) modalFilled)))
     = [] /\
   error (final (dispatch allGood handleTransfer
                   (rerender (final (dispatch allGood handleTransfer modalFilled)) modalFilled)))
     = "Please enter recipient address and amount").
Proof.
  split.
  - destruct (resubmit_after_success allGood allGood sdkFilled eq_refl eq_refl)
      as (_ & Hc & He).
    split; assumption.
  - destruct (resubmit_after_success allGood allGood modalFilled eq_refl eq_refl)
      as (_ & Hc & He).
    split; assumption.
Defined.

(** X8. After a submission that passed the guards and whose transfer was not
    confirmed, the re-rendered form is ready for another try: the fields are
    as entered and still pass the guards, [loading] is false (the button is
    enabled), the error cell shows the rejected step's message, and the next
    [handleTransfer] clears that message before its first library call. *)
Theorem retry_after_failure :
  forall (w w' : World) (v : AppRender),
    validates v = true ->
    transfer_confirmed (trace (dispatch w handleTransfer v)) = false ->
    validates (rerender (final (dispatch w handleTransfer v)) v) = true /\
    loading (final (dispatch w handleTransfer v)) = false /\
    (exists e,
       handler_failure (trace (dispatch w handleTransfer v)) = Some e /\
       error (final (dispatch w handleTransfer v)) = message e) /\
    error_cleared_at_start
      (trace (dispatch w' handleTransfer
                (rerender (final (dispatch w handleTransfer v)) v))) = true.
Proof.
  intros w w' v V H.
  destruct (handleTransfer_reach w v) as (_ & Hfail & _).
  destruct (Hfail V H) as [e He].
  destruct (handleTransfer_run w v) as (_ & _ & _ & Hho & _).
  destruct (Hho e He) as (Hr & Ha & Hm & Hl).
  assert (V' : validates (rerender (final (dispatch w handleTransfer v)) v) = true)
    by (rewrite (validates_rerender _ v Hr Ha); exact V).
  split; [exact V' |]. split; [exact Hl |].
  split; [exists e; split; assumption |].
  destruct (handleTransfer_run w' (rerender (final (dispatch w handleTransfer v)) v))
    as (_ & _ & _ & _ & Hclear & _).
  apply Hclear. exact V'.
Qed.

Lemma retry_after_failure_witness :
  (validates (rerender (final (dispatch txReverts handleTransfer sdkBusy)) sdkBusy) = true /\
   loading (final (dispatch txReverts handleTransfer sdkBusy)) = false /\
   error (final (dispatch txReverts handleTransfer sdkBusy))
     = "transaction execution reverted") /\
  (validates (rerender (final (dispatch txReverts handleTransfer modalFilled)) modalFilled)
     = true /\
   loading (final (dispatch txReverts handleTransfer modalFilled)) = false /\
   error (final (dispatch txReverts handleTransfer modalFilled))
     = "transaction execution reverted").
Proof.
  split.
  - destruct (retry_after_failure txReverts allGood sdkBusy eq_refl eq_refl)
      as (Hv & Hl & _ & _).
    split; [exact Hv |]. split; [exact Hl | reflexivity].
  - destruct (retry_after_failure txReverts allGood modalFilled eq_refl eq_refl)
      as (Hv & Hl & _ & _).
    split; [exact Hv |]. split; [exact Hl | reflexivity].
Defined.

(** ** Connection and chain switch, further *)

(** X9. [connect] (SDK version) never throws, ends with [loading] false and
    changes no balance and no form field; its library calls are wallet calls
    only, and every wallet request is the switch to chain 0x38 or the
    registration of the BSC descriptor.  When [sdk.connect()] is rejected
    that call is the only one made and [switchToBNBChain] is not entered;
    otherwise [switchToBNBChain] is entered exactly once and, with a
    provider handle, issues exactly one switch request. *)
Theorem connect_outcomes :
  forall (w : World) (r : SdkApp.Render),
    outcome (run w (SdkApp.connect r) (SdkApp.cells r) []) = Returned tt /\
    loading (final (run w (SdkApp.connect r) (SdkApp.cells r) [])) = false /\
    bnbBalance (final (run w (SdkApp.connect r) (SdkApp.cells r) []))
      = bnbBalance (SdkApp.cells r) /\
    usdtBalance (final (run w (SdkApp.connect r) (SdkApp.cells r) []))
      = usdtBalance (SdkApp.cells r) /\
    recipient (final (run w (SdkApp.connect r) (SdkApp.cells r) []))
      = recipient (SdkApp.cells r) /\
    amount (final (run w (SdkApp.connect r) (SdkApp.cells r) []))
      = amount (SdkApp.cells r) /\
    forallb is_wallet_call (calls (trace (run w (SdkApp.connect r) (SdkApp.cells r) [])))
      = true /\
    Forall targets_bsc (trace (run w (SdkApp.connect r) (SdkApp.cells r) [])) /\
    (forall e,
       connect_failure (trace (run w (SdkApp.connect r) (SdkApp.cells r) [])) = Some e ->
       invocations FnSwitchToBNBChain
         (trace (run w (SdkApp.connect r) (SdkApp.cells r) [])) = 0 /\
       List.length (calls (trace (run w (SdkApp.connect r) (SdkApp.cells r) []))) = 1) /\
    (connect_failure (trace (run w (SdkApp.connect r) (SdkApp.cells r) [])) = None ->
       invocations FnSwitchToBNBChain
         (trace (run w (SdkApp.connect r) (SdkApp.cells r) [])) = 1 /\
       switch_requests (trace (run w (SdkApp.connect r) (SdkApp.cells r) [])) =
         (if absent (SdkApp.provider (SdkApp.hooks r)) then 0 else 1)).
Proof.
  intros w r. apply connect_frame_sdk.
Qed.

Lemma connect_outcomes_witness :
  (invocations FnSwitchToBNBChain
     (trace (run walletRefuses (SdkApp.connect (SdkApp.mkRender sdkSession filledForm))
               filledForm [])) = 0 /\
   List.length
     (calls (trace (run walletRefuses (SdkApp.connect (SdkApp.mkRender sdkSession filledForm))
                      filledForm []))) = 1) /\
  (invocations FnSwitchToBNBChain
     (trace (run allGood (SdkApp.connect (SdkApp.mkRender sdkSession filledForm))
               filledForm [])) = 1 /\
   switch_requests
     (trace (run allGood (SdkApp.connect (SdkApp.mkRender sdkSession filledForm))
               filledForm [])) = 1).
Proof.
  split.
  - destruct (connect_outcomes walletRefuses (SdkApp.mkRender sdkSession filledForm))
      as (_ & _ & _ & _ & _ & _ & _ & _ & Hf & _).
    apply (Hf (mkError "User rejected the request." (CodeNum 4001))). reflexivity.
  - destruct (connect_outcomes allGood (SdkApp.mkRender sdkSession filledForm))
      as (_ & _ & _ & _ & _ & _ & _ & _ & _ & Hs).
    apply Hs. reflexivity.
Defined.

Lemma switch_more w v :
  switch_more_post v (dispatch w switchToBNBChain v).
Proof.
  destruct v as [r | r]; unfold dispatch; cbn [switchToBNBChain cells].
  - apply switch_more_sdk.
  - apply switch_more_modal.
Qed.

(** X10. [switchToBNBChain] issues exactly one switch request when the
    session has a provider handle and none, with no call at all and no cell
    changed, when it has not; it makes at most two calls, wallet requests
    for chain 0x38 only.  When no request is rejected no cell changes.  A
    switch rejected with a code other than 4902 triggers no registration and
    leaves the switch message in the error cell. *)
Theorem switchToBNBChain_requests :
  forall (w : World) (v : AppRender),
    switch_requests (trace (dispatch w switchToBNBChain v)) =
      (if absent (providerHandle v) then 0 else 1) /\
    List.length (calls (trace (dispatch w switchToBNBChain v))) <= 2 /\
    forallb is_wallet_call (calls (trace (dispatch w switchToBNBChain v))) = true /\
    Forall targets_bsc (trace (dispatch w switchToBNBChain v)) /\
    (existsb is_rejected (trace (dispatch w switchToBNBChain v)) = false ->
     final (dispatch w switchToBNBChain v) = cells v) /\
    (providerHandle v = None ->
     calls (trace (dispatch w switchToBNBChain v)) = [] /\
     final (dispatch w switchToBNBChain v) = cells v) /\
    (existsb is_switch_rejected_other (trace (dispatch w switchToBNBChain v)) = true ->
     add_chain_requests (trace (dispatch w switchToBNBChain v)) = [] /\
     error (final (dispatch w switchToBNBChain v)) = "Failed to switch network").
Proof.
  intros w v. apply switch_more.
Qed.

Lemma switchToBNBChain_requests_witness :
  (final (dispatch allGood switchToBNBChain sdkFilled) = cells sdkFilled /\
   final (dispatch allGood switchToBNBChain modalFilled) = cells modalFilled) /\
  (calls (trace (dispatch allGood switchToBNBChain sdkUnprovided)) = [] /\
   calls (trace (dispatch allGood switchToBNBChain modalUnprovided)) = []) /\
  (add_chain_requests (trace (dispatch switchRefused switchToBNBChain sdkFilled)) = [] /\
   error (final (dispatch switchRefused switchToBNBChain sdkFilled))
     = "Failed to switch network") /\
  (add_chain_requests (trace (dispatch switchRefused switchToBNBChain modalFilled)) = [] /\
   error (final (dispatch switchRefused switchToBNBChain modalFilled))
     = "Failed to switch network").
Proof.
  split; [| split; [| split]].
  - destruct (switchToBNBChain_requests allGood sdkFilled) as (_ & _ & _ & _ & H1 & _).
    destruct (switchToBNBChain_requests allGood modalFilled) as (_ & _ & _ & _ & H2 & _).
    split; [apply H1 | apply H2]; reflexivity.
  - destruct (switchToBNBChain_requests allGood sdkUnprovided)
      as (_ & _ & _ & _ & _ & H1 & _).
    destruct (switchToBNBChain_requests allGood modalUnprovided)
      as (_ & _ & _ & _ & _ & H2 & _).
    split; [apply H1 | apply H2]; reflexivity.
  - destruct (switchToBNBChain_requests switchRefused sdkFilled)
      as (_ & _ & _ & _ & _ & _ & H).
    apply H. reflexivity.
  - destruct (switchToBNBChain_requests switchRefused modalFilled)
      as (_ & _ & _ & _ & _ & _ & H).
    apply H. reflexivity.
Defined.

(** ** The effect *)

(** X11. The effect on connection, account and chain never throws and calls
    into the libraries exactly when the session is connected and has its
    account and its provider handle; on a session that is not connected it
    does nothing at all. *)
Theorem effect_fetches_when_connected :
  forall (w : World) (v : AppRender),
    outcome (dispatch w effect v) = Returned tt /\
    existsb is_call (trace (dispatch w effect v)) =
      sessionConnected v && session_ready v /\
    (sessionConnected v = false ->
     trace (dispatch w effect v) = [] /\ final (dispatch w effect v) = cells v).
Proof.
  intros w [r | r]; unfold dispatch; cbn [effect cells sessionConnected].
  - pose proof (fetch_kinds_sdk w r) as (K & _).
    pose proof (fetchBalances_returns w (Sdk r) (SdkApp.cells r) []) as O.
    cbn [fetchBalances] in O.
    unfold SdkApp.effect, session_ready in *.
    destruct (SdkApp.connected (SdkApp.hooks r));
      destruct (falsy (SdkApp.account (SdkApp.hooks r))); simpl in *;
      repeat split; try discriminate; assumption.
  - pose proof (fetch_kinds_modal w r) as (K & _).
    pose proof (fetchBalances_returns w (Modal r) (ModalApp.cells r) []) as O.
    cbn [fetchBalances] in O.
    unfold ModalApp.effect, session_ready in *.
    destruct (ModalApp.isConnected (ModalApp.hooks r));
      destruct (falsy (ModalApp.address (ModalApp.hooks r))); simpl in *;
      rewrite ?orb_true_r in *; simpl in *;
      repeat split; try discriminate; assumption.
Qed.

Lemma effect_fetches_when_connected_witness :
  (trace (dispatch allGood effect sdkDisconnected) = [] /\
   final (dispatch allGood effect sdkDisconnected) = cells sdkDisconnected) /\
  (trace (dispatch allGood effect modalDisconnected) = [] /\
   final (dispatch allGood effect modalDisconnected) = cells modalDisconnected) /\
  existsb is_call (trace (dispatch allGood effect sdkFilled)) = true /\
  existsb is_call (trace (dispatch allGood effect modalFilled)) = true.
Proof.
  split; [| split; [| split]].
  - destruct (effect_fetches_when_connected allGood sdkDisconnected) as (_ & _ & H).
    apply H. reflexivity.
  - destruct (effect_fetches_when_connected allGood modalDisconnected) as (_ & _ & H).
    apply H. reflexivity.
  - destruct (effect_fetches_when_connected allGood sdkFilled) as (_ & H & _).
    rewrite H. reflexivity.
  - destruct (effect_fetches_when_connected allGood modalFilled) as (_ & H & _).
    rewrite H. reflexivity.
Defined.
